(** * AI knowledge assistant: the agent pipeline and the document processor

    A shallow embedding of [main.py] (the four agents and the graph that
    chains them), [api.py] (the [/query] and [/status] endpoints) and
    [processor.py] (the document ingestion and its menu), followed by the
    properties proved about them.

    Python values are embedded as follows.
    - [str] is [string] (the UTF-8 bytes of the text); f-strings are
      concatenations.
    - A [dict] whose order matters is an association list in insertion
      order ([PyDict]); [d[k] = v] keeps the position of an existing key
      and appends a new one.
    - The [AgentState] dict is a record of optional fields, one per key the
      code reads or writes; [None] is an absent key.
    - Exceptions are values of [Exn]; code that can raise runs in the monad
      [M], a state monad over the observable world with an error result.
    - The collaborators (language model, vector store, file system, loaders,
      text splitter, clock) are parameters, gathered in a record [Env]. *)

From Stdlib Require Import String Ascii List Arith Lia Bool DecimalString.
Import ListNotations.
Open Scope string_scope.

(** ** Python basics *)

Definition nl : string := String "010" "".

(** The lines of a text, joined by newlines. *)
Definition lines (ls : list string) : string := String.concat nl ls.

(** [str(n)] for a non-negative integer. *)
Definition str_of_nat (n : nat) : string :=
  NilEmpty.string_of_uint (Nat.to_uint n).

(** Truthiness of a string: [not s] holds for the empty string. *)
Definition nonempty (s : string) : bool :=
  match s with
  | EmptyString => false
  | String _ _ => true
  end.

Inductive ExnClass : Type :=
| KeyError
| IndexError
| FileNotFoundError
| ValueError
| NotADirectoryError
| GraphRecursionError
| HTTPException (status_code : nat)
| OtherError (name : string).

(** An exception: its class and [str(e)]. *)
Record Exn : Type := mkExn { exn_class : ExnClass; exn_str : string }.

Inductive Result (A : Type) : Type :=
| Ok (a : A)
| Raise (e : Exn).
Arguments Ok {A} a.
Arguments Raise {A} e.

(** Insertion-ordered dictionaries with string keys. *)
Module PyDict.

Definition t (V : Type) : Type := list (string * V).

Fixpoint get {V} (d : t V) (k : string) : option V :=
  match d with
  | [] => None
  | (k', v) :: d' => if String.eqb k' k then Some v else get d' k
  end.

Definition mem {V} (d : t V) (k : string) : bool :=
  match get d k with
  | Some _ => true
  | None => false
  end.

(** [d[k] = v] *)
Fixpoint set {V} (d : t V) (k : string) (v : V) : t V :=
  match d with
  | [] => [(k, v)]
  | (k', v') :: d' =>
      if String.eqb k' k then (k', v) :: d' else (k', v') :: set d' k v
  end.

(** [d.update(other)] *)
Definition update {V} (d other : t V) : t V :=
  fold_left (fun acc kv => set acc (fst kv) (snd kv)) other d.

Definition keys {V} (d : t V) : list string := map fst d.
Definition values {V} (d : t V) : list V := map snd d.

End PyDict.

(** ** The monad of effectful code

    A computation takes the world, and gives back a result or an exception
    together with the world as it has become. An exception keeps the effects
    that came before it. *)

Section Monad.
Context {W : Type}.

Definition M (A : Type) : Type := W -> Result A * W.

Definition ret {A} (a : A) : M A := fun w => (Ok a, w).

Definition raise {A} (e : Exn) : M A := fun w => (Raise e, w).

Definition bind {A B} (m : M A) (k : A -> M B) : M B :=
  fun w =>
    match m w with
    | (Ok a, w') => k a w'
    | (Raise e, w') => (Raise e, w')
    end.

(** [try: m except Exception as e: h e] *)
Definition try_except {A} (m : M A) (h : Exn -> M A) : M A :=
  fun w =>
    match m w with
    | (Ok a, w') => (Ok a, w')
    | (Raise e, w') => h e w'
    end.

(** The outcome of a call to a collaborator. *)
Definition lift {A} (r : Result A) : M A := fun w => (r, w).

Definition modify (f : W -> W) : M unit := fun w => (Ok tt, f w).
End Monad.
Arguments M W A : clear implicits.

Notation "x <- m ;; k" := (bind m (fun x => k))
  (at level 61, m at next level, right associativity).
Notation "m ;;; k" := (bind m (fun _ => k))
  (at level 61, right associativity).

(** A document of the vector store. *)
Record Document : Type := mkDocument {
  page_content : string;
  metadata : PyDict.t string
}.

(** ** main.py: the agents and their graph *)

Module Main.

(** [HumanMessage(content=...)] *)
Record BaseMessage : Type := HumanMessage { content : string }.

(** The state dict handed from agent to agent. The first six keys are the
    ones [class AgentState(TypedDict)] declares; the agents also store the
    five others. *)
Record AgentState : Type := mkState {
  messages : option (list BaseMessage);
  current_step : option string;
  context : option string;
  research_summary : option string;
  final_answer : option string;
  agent_outputs : option (PyDict.t string);
  query : option string;
  analysis : option string;
  draft : option string;
  feedback : option string;
  final_response : option string
}.

(** [langgraph.graph.END] *)
Definition END : string := "__end__".

(** An assignment [state[key] = value]. *)
Inductive Update : Type :=
| set_current_step (v : string)
| set_context (v : string)
| set_agent_outputs (v : PyDict.t string)
| set_query (v : string)
| set_analysis (v : string)
| set_draft (v : string)
| set_feedback (v : string)
| set_final_response (v : string).

Definition key_of (u : Update) : string :=
  match u with
  | set_current_step _ => "current_step"
  | set_context _ => "context"
  | set_agent_outputs _ => "agent_outputs"
  | set_query _ => "query"
  | set_analysis _ => "analysis"
  | set_draft _ => "draft"
  | set_feedback _ => "feedback"
  | set_final_response _ => "final_response"
  end.

Definition apply_update (u : Update) (s : AgentState) : AgentState :=
  match u with
  | set_current_step v =>
      mkState (messages s) (Some v) (context s) (research_summary s)
        (final_answer s) (agent_outputs s) (query s) (analysis s) (draft s)
        (feedback s) (final_response s)
  | set_context v =>
      mkState (messages s) (current_step s) (Some v) (research_summary s)
        (final_answer s) (agent_outputs s) (query s) (analysis s) (draft s)
        (feedback s) (final_response s)
  | set_agent_outputs v =>
      mkState (messages s) (current_step s) (context s) (research_summary s)
        (final_answer s) (Some v) (query s) (analysis s) (draft s)
        (feedback s) (final_response s)
  | set_query v =>
      mkState (messages s) (current_step s) (context s) (research_summary s)
        (final_answer s) (agent_outputs s) (Some v) (analysis s) (draft s)
        (feedback s) (final_response s)
  | set_analysis v =>
      mkState (messages s) (current_step s) (context s) (research_summary s)
        (final_answer s) (agent_outputs s) (query s) (Some v) (draft s)
        (feedback s) (final_response s)
  | set_draft v =>
      mkState (messages s) (current_step s) (context s) (research_summary s)
        (final_answer s) (agent_outputs s) (query s) (analysis s) (Some v)
        (feedback s) (final_response s)
  | set_feedback v =>
      mkState (messages s) (current_step s) (context s) (research_summary s)
        (final_answer s) (agent_outputs s) (query s) (analysis s) (draft s)
        (Some v) (final_response s)
  | set_final_response v =>
      mkState (messages s) (current_step s) (context s) (research_summary s)
        (final_answer s) (agent_outputs s) (query s) (analysis s) (draft s)
        (feedback s) (Some v)
  end.

(** What a run does, in the order it does it: the graph starts a node, an
    agent asks the vector store or the language model, an agent assigns a
    key of the state or an entry of [state["agent_outputs"]]. The [print]
    calls of the agents are left out: they change nothing the agents read. *)
Inductive Event : Type :=
| Enter (node : string)
| Search (q : string) (k : nat)
| Invoke (prompt : string)
| Assign (u : Update)
| AssignOutput (key : string) (fragment : string).

(** The world of a run is the list of its events, oldest first. *)
Definition Trace : Type := list Event.

Definition emit (e : Event) : M Trace unit := modify (fun tr => (tr ++ [e])%list).

(** The collaborators created at import time: [vectorstore] and [llm]. The
    four prompts of a run differ from their first character on, so a function
    of the prompt covers every way the model can answer within a run. *)
Record Env : Type := mkEnv {
  vectorstore_similarity_search : string -> nat -> Result (list Document);
  llm_invoke_result : string -> Result string
}.

Section Agents.
Variable env : Env.

(** [vectorstore.similarity_search(query, k=k)] *)
Definition similarity_search (q : string) (k : nat) : M Trace (list Document) :=
  emit (Search q k) ;;; lift (vectorstore_similarity_search env q k).

(** [llm.invoke(prompt)] *)
Definition llm_invoke (prompt : string) : M Trace string :=
  emit (Invoke prompt) ;;; lift (llm_invoke_result env prompt).

(** [state[key] = value] *)
Definition assign (u : Update) (state : AgentState) : M Trace AgentState :=
  emit (Assign u) ;;; ret (apply_update u state).

(** [state["agent_outputs"][key] = fragment] *)
Definition assign_output (key fragment : string) (state : AgentState)
  : M Trace AgentState :=
  match agent_outputs state with
  | None => raise (mkExn KeyError "'agent_outputs'")
  | Some d =>
      emit (AssignOutput key fragment) ;;;
      ret (apply_update (set_agent_outputs (PyDict.set d key fragment)) state)
  end.

(** [state["messages"][-1].content] *)
Definition last_message_content (state : AgentState) : M Trace string :=
  match messages state with
  | None => raise (mkExn KeyError "'messages'")
  | Some ms =>
      match rev ms with
      | [] => raise (mkExn IndexError "list index out of range")
      | m :: _ => ret (content m)
      end
  end.

(** The opening of the researcher, writer and critic agents:
[[
    query = state.get("query")
    if not query:
        query = state["messages"][-1].content
        state["query"] = query
]] *)
Definition get_query (state : AgentState) : M Trace (string * AgentState) :=
  let fallback :=
    q <- last_message_content state ;;
    state <- assign (set_query q) state ;;
    ret (q, state) in
  match query state with
  | Some q => if nonempty q then ret (q, state) else fallback
  | None => fallback
  end.

(** [state.get(key, "")] *)
Definition get_or_empty (field : option string) : string :=
  match field with
  | Some v => v
  | None => ""
  end.

(** *** The texts *)

Definition retriever_fragment (n : nat) (context : string) : string :=
  lines [ "<details open>";
          "<summary>### 📚 Retrieved Documents</summary>";
          "";
          "Found " ++ str_of_nat n ++ " relevant documents.";
          "";
          "<details>";
          "<summary>Document Content</summary>";
          "";
          "```";
          context;
          "```";
          "";
          "</details>";
          "";
          "</details>";
          "" ].

Definition researcher_prompt (query context : string) : string :=
  lines [ "Analyze this query and context, identifying key points and relationships:";
          "";
          "Query: " ++ query;
          "";
          "Context: " ++ context ].

Definition research_fragment (analysis query : string) : string :=
  lines [ "<details open>";
          "<summary>### 🔍 Research Analysis</summary>";
          "";
          analysis;
          "";
          "<details>";
          "<summary>Analysis Details</summary>";
          "";
          "- Query: " ++ query;
          "- Context Analysis: Present";
          "- Key Points Identified";
          "- Relationships Mapped";
          "";
          "</details>";
          "";
          "</details>";
          "" ].

Definition writer_prompt (query context analysis : string) : string :=
  lines [ "Draft a comprehensive response that addresses this query using the context and analysis:";
          "";
          "Query: " ++ query;
          "Context: " ++ context;
          "Analysis: " ++ analysis ].

Definition writer_fragment (draft : string) : string :=
  lines [ "<details open>";
          "<summary>### ✍️ Initial Draft</summary>";
          "";
          draft;
          "";
          "<details>";
          "<summary>Writing Process</summary>";
          "";
          "1. Analyzed query requirements";
          "2. Incorporated context";
          "3. Applied research insights";
          "4. Structured response";
          "";
          "</details>";
          "";
          "</details>";
          "" ].

Definition feedback_prompt (query context analysis draft : string) : string :=
  lines [ "Review this draft response and provide specific feedback:";
          "        Query: " ++ query;
          "        Context: " ++ context;
          "        Analysis: " ++ analysis;
          "        Draft: " ++ draft;
          "        ";
          "        Provide feedback on:";
          "        1. Accuracy and factual correctness";
          "        2. Completeness of response";
          "        3. Clarity and structure";
          "        4. Areas for improvement";
          "        " ].

Definition final_prompt (query draft feedback : string) : string :=
  lines [ "Create a final polished response incorporating this feedback:";
          "        Original Query: " ++ query;
          "        Draft: " ++ draft;
          "        Feedback: " ++ feedback;
          "        ";
          "        Requirements:";
          "        1. Address all feedback points";
          "        2. Maintain clear structure";
          "        3. Ensure completeness";
          "        4. Polish language and flow";
          "        " ].

Definition critic_fragment (feedback : string) : string :=
  lines [ "<details open>";
          "<summary>### 🎯 Review & Refinement</summary>";
          "";
          "<details>";
          "<summary>Feedback Summary</summary>";
          "";
          feedback;
          "";
          "</details>";
          "";
          "<details>";
          "<summary>Review Process</summary>";
          "";
          "- Evaluated accuracy and completeness";
          "- Assessed clarity and structure";
          "- Identified improvements";
          "- Refined content and flow";
          "";
          "</details>";
          "";
          "</details>";
          "" ].

Definition response_fragment (final : string) : string :=
  lines [ "<details open>";
          "<summary>### 🎬 Final Response</summary>";
          "";
          final;
          "";
          "---";
          "*Generated using multi-agent processing with context-aware analysis.*";
          "";
          "</details>";
          "" ].

(** *** The agents *)

Definition retriever_agent (state : AgentState) : M Trace AgentState :=
  q <- last_message_content state ;;
  docs <- similarity_search q 3 ;;
  let ctx := String.concat (nl ++ nl) (map page_content docs) in
  state <- match agent_outputs state with
           | None => assign (set_agent_outputs []) state
           | Some _ => ret state
           end ;;
  let response := retriever_fragment (length docs) ctx in
  state <- assign (set_current_step "researcher") state ;;
  state <- assign (set_context ctx) state ;;
  state <- assign (set_query q) state ;;
  state <- assign_output "retriever" response state ;;
  ret state.

Definition researcher_agent (state : AgentState) : M Trace AgentState :=
  qs <- get_query state ;;
  let q := fst qs in
  let state := snd qs in
  let ctx := get_or_empty (context state) in
  a <- llm_invoke (researcher_prompt q ctx) ;;
  let response := research_fragment a q in
  state <- assign (set_current_step "writer") state ;;
  state <- assign (set_analysis a) state ;;
  state <- assign_output "research" response state ;;
  ret state.

Definition writer_agent (state : AgentState) : M Trace AgentState :=
  qs <- get_query state ;;
  let q := fst qs in
  let state := snd qs in
  let ctx := get_or_empty (context state) in
  let a := get_or_empty (analysis state) in
  d <- llm_invoke (writer_prompt q ctx a) ;;
  let response := writer_fragment d in
  state <- assign (set_current_step "critic") state ;;
  state <- assign (set_draft d) state ;;
  state <- assign_output "writer" response state ;;
  ret state.

Definition critic_agent (state : AgentState) : M Trace AgentState :=
  qs <- get_query state ;;
  let q := fst qs in
  let state := snd qs in
  let d := get_or_empty (draft state) in
  let ctx := get_or_empty (context state) in
  let a := get_or_empty (analysis state) in
  fb <- llm_invoke (feedback_prompt q ctx a d) ;;
  final <- llm_invoke (final_prompt q d fb) ;;
  let response_critic := critic_fragment fb in
  let response_response := response_fragment final in
  state <- assign (set_current_step END) state ;;
  state <- assign (set_feedback fb) state ;;
  state <- assign (set_final_response final) state ;;
  state <- assign_output "critic" response_critic state ;;
  state <- assign_output "response" response_response state ;;
  ret state.

(** *** The graph *)

Record StateGraph : Type := mkGraph {
  nodes : PyDict.t (AgentState -> M Trace AgentState);
  edges : list (string * string);
  entry_point : option string
}.

Definition new_graph : StateGraph := mkGraph [] [] None.

Definition add_node (name : string) (agent : AgentState -> M Trace AgentState)
  (g : StateGraph) : StateGraph :=
  mkGraph (PyDict.set (nodes g) name agent) (edges g) (entry_point g).

Definition add_edge (source target : string) (g : StateGraph) : StateGraph :=
  mkGraph (nodes g) (edges g ++ [(source, target)])%list (entry_point g).

Definition set_entry_point (name : string) (g : StateGraph) : StateGraph :=
  mkGraph (nodes g) (edges g) (Some name).

Definition workflow : StateGraph :=
  set_entry_point "retriever"
    (add_edge "writer" "critic"
      (add_edge "researcher" "writer"
        (add_edge "retriever" "researcher"
          (add_node "critic" critic_agent
            (add_node "writer" writer_agent
              (add_node "researcher" researcher_agent
                (add_node "retriever" retriever_agent new_graph))))))).

(** What the graph keeps of a state between two nodes. [StateGraph(AgentState)]
    declares the channels of the graph; a runtime either passes the dict a node
    returned on as it is, or keeps the declared keys only. The properties below
    are proved for both. *)
Inductive Runtime : Type := InPlace | Channels.

Definition declared (s : AgentState) : AgentState :=
  mkState (messages s) (current_step s) (context s) (research_summary s)
    (final_answer s) (agent_outputs s) None None None None None.

Definition hand_over (rt : Runtime) (s : AgentState) : AgentState :=
  match rt with
  | InPlace => s
  | Channels => declared s
  end.

Definition successors (g : StateGraph) (name : string) : list string :=
  map snd (filter (fun e => String.eqb (fst e) name) (edges g)).

(** A run from node [name]: the node runs, then the node its edge leads to;
    a node without an outgoing edge ends the run. [fuel] is the number of
    steps the runtime allows. *)
Fixpoint run (rt : Runtime) (g : StateGraph) (fuel : nat) (name : string)
  (state : AgentState) : M Trace AgentState :=
  match fuel with
  | 0 => raise (mkExn GraphRecursionError "Recursion limit reached")
  | S fuel' =>
      match PyDict.get (nodes g) name with
      | None => raise (mkExn ValueError ("Unknown node " ++ name))
      | Some agent =>
          emit (Enter name) ;;;
          state <- agent state ;;
          let state := hand_over rt state in
          match successors g name with
          | [] => ret state
          | [next] => run rt g fuel' next state
          | _ :: _ :: _ =>
              raise (mkExn (OtherError "NotImplementedError") "parallel branches")
          end
      end
  end.

Definition recursion_limit : nat := 25.

(** [workflow.compile().invoke(input)] *)
Definition invoke (rt : Runtime) (g : StateGraph) (input : AgentState)
  : M Trace AgentState :=
  match entry_point g with
  | None => raise (mkExn ValueError "Graph must have an entrypoint")
  | Some name => run rt g recursion_limit name (hand_over rt input)
  end.

(** [chain.invoke(input)] *)
Definition chain_invoke (rt : Runtime) (input : AgentState) : M Trace AgentState :=
  invoke rt workflow input.

End Agents.

(** [{"messages": [HumanMessage(content=q)]}], the input [api.py] builds. *)
Definition api_input (q : string) : AgentState :=
  mkState (Some [HumanMessage q]) None None None None None None None None None None.

(** The input of the test at the end of [main.py]. *)
Definition test_input (q : string) : AgentState :=
  mkState (Some [HumanMessage q]) (Some "retriever") (Some "") (Some "")
    (Some "") (Some []) None None None None None.

End Main.

(** ** api.py: the query endpoint *)

Module Api.

(** The request body. *)
Record Query : Type := mkQuery { query : string }.

(** [POST /query]; the value is the ["response"] field of the answer. *)
Definition query_knowledge_base (env : Main.Env) (rt : Main.Runtime) (q : Query)
  : M Main.Trace string :=
  try_except
    (let message := Main.HumanMessage (query q) in
     result <- Main.chain_invoke env rt
                 (Main.mkState (Some [message]) None None None None None
                    None None None None None) ;;
     let agent_outputs :=
       match Main.agent_outputs result with
       | Some d => d
       | None => []
       end in
     ret (String.concat nl (PyDict.values agent_outputs)))
    (fun e =>
       raise (mkExn (HTTPException 500)
                ("Error processing query: " ++ exn_str e))).

End Api.

(** ** processor.py: document ingestion *)

Module Processor.

(** The loader classes of [langchain_community.document_loaders]. *)
Inductive Loader : Type := PyPDFLoader | TextLoader | UnstructuredMarkdownLoader.

Definition SUPPORTED_EXTENSIONS : PyDict.t Loader :=
  [ (".pdf", PyPDFLoader); (".txt", TextLoader); (".md", UnstructuredMarkdownLoader) ].

(** The configuration of a [RecursiveCharacterTextSplitter]. *)
Record TextSplitter : Type := mkSplitter { chunk_size : nat; chunk_overlap : nat }.

Record Processor : Type := mkProcessor { text_splitter : TextSplitter }.

(** [Processor.__init__] *)
Definition init : Processor := mkProcessor (mkSplitter 1000 200).

(** What ingestion can change: the batches handed to the vector store (oldest
    first), the lines printed, and the number of times the clock was read. *)
Record World : Type := mkWorld {
  batches : list (list Document);
  stdout : list string;
  ticks : nat
}.

(** The collaborators. A path is the text of the path; the file system does
    not change during ingestion.
    - [path_str p] is [str(Path(p))], [path_name], [path_suffix],
      [path_exists], [path_is_dir] are the attributes and tests of [Path(p)];
    - [path_glob p pattern] is [[str(f) for f in Path(p).glob(pattern)]];
    - [loader_load c p] is [c(p).load()];
    - [split_documents size overlap docs] is [split_documents] of a splitter
      with that chunk size and overlap;
    - [add_documents_result stored batch] is the outcome of
      [vectorstore.add_documents(batch)] on a store that holds [stored];
    - [isoformat_now n] is [datetime.now().isoformat()] at the [n]-th reading. *)
Record Env : Type := mkEnv {
  path_str : string -> string;
  path_name : string -> string;
  path_suffix : string -> string;
  path_exists : string -> bool;
  path_is_dir : string -> bool;
  path_glob : string -> string -> Result (list string);
  loader_load : Loader -> string -> Result (list Document);
  split_documents : nat -> nat -> list Document -> Result (list Document);
  add_documents_result : list (list Document) -> list Document -> Result unit;
  isoformat_now : nat -> string
}.

(** [str.lower] on the ASCII letters; the other bytes are left as they
    are. *)
Definition lower_ascii (c : ascii) : ascii :=
  let n := nat_of_ascii c in
  if Nat.leb 65 n && Nat.leb n 90 then ascii_of_nat (n + 32) else c.

Fixpoint lower (s : string) : string :=
  match s with
  | EmptyString => EmptyString
  | String c s' => String (lower_ascii c) (lower s')
  end.

(** [document_type or 'general'] *)
Definition or_general (document_type : option string) : string :=
  match document_type with
  | Some t => if nonempty t then t else "general"
  | None => "general"
  end.

(** [repr] of a list of strings that need no escaping. *)
Definition repr_list (l : list string) : string :=
  "[" ++ String.concat ", " (map (fun s => "'" ++ s ++ "'") l) ++ "]".

(** The statistics dict of [process_directory]. *)
Record Stats : Type := mkStats { total : nat; successful : nat; failed : nat }.

Section Ingestion.
Variable env : Env.

(** [print(line)] on a console that can show every line; [Strict.print]
    below is the general case. *)
Definition print (line : string) : M World unit :=
  modify (fun w => mkWorld (batches w) (stdout w ++ [line])%list (ticks w)).

(** [datetime.now().isoformat()] *)
Definition now : M World string :=
  fun w => (Ok (isoformat_now env (ticks w)),
            mkWorld (batches w) (stdout w) (S (ticks w))).

(** [vectorstore.add_documents(splits)] *)
Definition add_documents (splits : list Document) : M World unit :=
  fun w =>
    match add_documents_result env (batches w) splits with
    | Ok _ => (Ok tt, mkWorld (batches w ++ [splits])%list (stdout w) (ticks w))
    | Raise e => (Raise e, w)
    end.

(** The loop [for doc in documents: doc.metadata.update({...})]. *)
Fixpoint add_metadata (path : string) (document_type : option string)
  (documents : list Document) : M World (list Document) :=
  match documents with
  | [] => ret []
  | doc :: rest =>
      stamp <- now ;;
      let doc' :=
        mkDocument (page_content doc)
          (PyDict.update (metadata doc)
             [ ("source", path_str env path);
               ("filename", path_name env path);
               ("type", or_general document_type);
               ("date_processed", stamp) ]) in
      rest' <- add_metadata path document_type rest ;;
      ret (doc' :: rest')
  end.

(** The body of the [try] of [process_document]. *)
Definition process_document_body (self : Processor) (file_path : string)
  (document_type : option string) : M World bool :=
  let path := file_path in
  (if negb (path_exists env path)
   then raise (mkExn FileNotFoundError ("File not found: " ++ file_path))
   else ret tt) ;;;
  let ext := lower (path_suffix env path) in
  (if negb (PyDict.mem SUPPORTED_EXTENSIONS ext)
   then raise (mkExn ValueError
                 ("Unsupported file type: " ++ ext ++ ". Supported types: "
                  ++ repr_list (PyDict.keys SUPPORTED_EXTENSIONS)))
   else ret tt) ;;;
  print ("Processing " ++ path_name env path ++ "...") ;;;
  loader_class <- match PyDict.get SUPPORTED_EXTENSIONS ext with
                  | Some c => ret c
                  | None => raise (mkExn KeyError ("'" ++ ext ++ "'"))
                  end ;;
  documents <- lift (loader_load env loader_class (path_str env path)) ;;
  documents <- add_metadata path document_type documents ;;
  splits <- lift (split_documents env (chunk_size (text_splitter self))
                    (chunk_overlap (text_splitter self)) documents) ;;
  add_documents splits ;;;
  print ("Successfully processed " ++ path_name env path ++ " ("
         ++ str_of_nat (length splits) ++ " chunks created)") ;;;
  ret true.

Definition process_document (self : Processor) (file_path : string)
  (document_type : option string) : M World bool :=
  try_except
    (process_document_body self file_path document_type)
    (fun e =>
       print ("Error processing document " ++ file_path ++ ": " ++ exn_str e) ;;;
       ret false).

(** Inside [process_directory] the statistics are a local dict next to the
    world. *)
Definition in_world {A} (m : M World A) : M (Stats * World) A :=
  fun sw =>
    match m (snd sw) with
    | (r, w') => (r, (fst sw, w'))
    end.

Definition update_stats (f : Stats -> Stats) : M (Stats * World) unit :=
  modify (fun sw => (f (fst sw), snd sw)).

(** The loop [for file_path in files]. *)
Fixpoint for_files (self : Processor) (files : list string)
  (document_type : option string) : M (Stats * World) unit :=
  match files with
  | [] => ret tt
  | file_path :: rest =>
      ok <- in_world (process_document self file_path document_type) ;;
      (if ok : bool
       then update_stats (fun s => mkStats (total s) (successful s + 1) (failed s))
       else update_stats (fun s => mkStats (total s) (successful s) (failed s + 1))) ;;;
      for_files self rest document_type
  end.

(** The loop [for ext, _ in self.SUPPORTED_EXTENSIONS.items()]. *)
Fixpoint for_extensions (self : Processor) (path : string) (exts : list string)
  (document_type : option string) : M (Stats * World) unit :=
  match exts with
  | [] => ret tt
  | ext :: rest =>
      files <- lift (path_glob env path ("**/*" ++ ext)) ;;
      update_stats (fun s => mkStats (total s + length files) (successful s) (failed s)) ;;;
      for_files self files document_type ;;;
      for_extensions self path rest document_type
  end.

Definition process_directory (self : Processor) (directory_path : string)
  (document_type : option string) : M World Stats :=
  fun w =>
    let stats := mkStats 0 0 0 in
    let path := directory_path in
    match
      try_except
        ((if negb (path_exists env path) || negb (path_is_dir env path)
          then raise (mkExn NotADirectoryError
                        ("Directory not found: " ++ directory_path))
          else ret tt) ;;;
         for_extensions self path (PyDict.keys SUPPORTED_EXTENSIONS) document_type)
        (fun e =>
           in_world (print ("Error processing directory " ++ directory_path
                            ++ ": " ++ exn_str e)))
        (stats, w)
    with
    | (Ok _, (stats', w')) => (Ok stats', w')
    | (Raise e, (_, w')) => (Raise e, w')
    end.

End Ingestion.

(** *** Reading an ingestion *)

(** [processed env self t files w outcomes w']: starting in world [w], each
    file of [files] in turn was given to [process_document], which returned
    the corresponding value of [outcomes], and the world became [w']. *)
Inductive processed (env : Env) (self : Processor) (document_type : option string)
  : list string -> World -> list bool -> World -> Prop :=
| processed_nil w :
    processed env self document_type [] w [] w
| processed_cons file_path rest w ok w1 oks w2 :
    process_document env self file_path document_type w = (Ok ok, w1) ->
    processed env self document_type rest w1 oks w2 ->
    processed env self document_type (file_path :: rest) w (ok :: oks) w2.

Definition count_true (l : list bool) : nat := length (filter (fun b => b) l).
Definition count_false (l : list bool) : nat := length (filter negb l).

(** The statistics of a list of outcomes. *)
Definition stats_of (outcomes : list bool) : Stats :=
  mkStats (length outcomes) (count_true outcomes) (count_false outcomes).

End Processor.

(** ** processor.py: the menu *)

Module Cli.
Import Processor.

(** The console: the lines still to be typed, and the world of ingestion.
    What [input] shows as its prompt is recorded in [stdout] like a printed
    line. *)
Record Console : Type := mkConsole { stdin : list string; world : World }.

(** [doc_type or None] *)
Definition or_none (s : string) : option string :=
  if nonempty s then Some s else None.

(** A computation on the world, run from the console. *)
Definition in_console {A} (m : M World A) : M Console A :=
  fun c =>
    match m (world c) with
    | (r, w') => (r, mkConsole (stdin c) w')
    end.

(** What [input] raises at the end of the input. *)
Definition EOFError : Exn :=
  mkExn (OtherError "EOFError") "EOF when reading a line".

(** [input(prompt)]: shows the prompt and returns the next line; at the end
    of the input it raises [EOFError]. The lines of [stdin] are lines that
    stdin can decode. *)
Definition input (prompt : string) : M Console string :=
  fun c =>
    let w := world c in
    let w' := mkWorld (batches w) (stdout w ++ [prompt])%list (ticks w) in
    match stdin c with
    | [] => (Raise EOFError, mkConsole [] w')
    | line :: rest => (Ok line, mkConsole rest w')
    end.

Section Menu.
Variable env : Env.

(** The loop [while True] of [main]; [fuel] bounds the number of rounds. *)
Fixpoint main_loop (fuel : nat) (processor : Processor) : M Console unit :=
  match fuel with
  | 0 => raise (mkExn (OtherError "OutOfFuel") "")
  | S fuel' =>
      in_console (print (nl ++ "=== Knowledge Base ===")) ;;;
      in_console (print "1. Process single document") ;;;
      in_console (print "2. Process directory") ;;;
      in_console (print "3. Exit") ;;;
      choice <- input (nl ++ "Enter your choice (1-3): ") ;;
      if String.eqb choice "1" then
        file_path <- input "Enter the path to your document: " ;;
        doc_type <- input "Enter document type (press Enter for 'general'): " ;;
        ok <- in_console
                (process_document env processor file_path (or_none doc_type)) ;;
        (if ok : bool
         then in_console (print "Document processed successfully!")
         else ret tt) ;;;
        main_loop fuel' processor
      else if String.eqb choice "2" then
        dir_path <- input "Enter the directory path: " ;;
        doc_type <- input "Enter document type (press Enter for 'general'): " ;;
        stats <- in_console
                   (process_directory env processor dir_path (or_none doc_type)) ;;
        in_console (print (nl ++ "Processing complete:")) ;;;
        in_console (print ("Total files: " ++ str_of_nat (total stats))) ;;;
        in_console (print ("Successfully processed: "
                           ++ str_of_nat (successful stats))) ;;;
        in_console (print ("Failed: " ++ str_of_nat (failed stats))) ;;;
        main_loop fuel' processor
      else if String.eqb choice "3" then
        ret tt
      else
        in_console (print "Invalid choice. Please try again.") ;;;
        main_loop fuel' processor
  end.

(** [main()]. Every round reads a line, so one round more than there are
    lines is enough. *)
Definition main : M Console unit :=
  fun c => main_loop (S (length (stdin c))) init c.

End Menu.

End Cli.

(** ** api.py: the status endpoint *)

Module Status.

(** [vectorstore._collection]: what its [count()] and its [name] give. *)
Record Collection : Type := mkCollection {
  count : Result nat;
  name : Result string
}.

(** The answer of [GET /status]. *)
Inductive Reply : Type :=
| ready (documents_count : nat) (collection_name : string)
| error (message : string).

Definition get_status {W} (collection : Collection) : M W Reply :=
  try_except
    (documents_count <- lift (count collection) ;;
     collection_name <- lift (name collection) ;;
     ret (ready documents_count collection_name))
    (fun e => ret (error (exn_str e))).

End Status.

(** ** processor.py on a console that can refuse a line

    [print] raises [UnicodeEncodeError] when stdout cannot encode the line,
    for instance a file name that is not valid text for a strict UTF-8
    console. This module is [process_document] and [process_directory] again,
    with such a [print] and with [str.lower] as a parameter. *)

Module Strict.
Import Processor.

(** The console: the lines it can encode, and the text of the error for a
    line it cannot. *)
Record Stdout : Type := mkStdout {
  encodes : string -> bool;
  encode_error : string -> string
}.

Definition UnicodeEncodeError (out : Stdout) (line : string) : Exn :=
  mkExn (OtherError "UnicodeEncodeError") (encode_error out line).

Section Ingestion.
Variable env : Env.
Variable out : Stdout.
Variable str_lower : string -> string.

(** [print(line)] *)
Definition print (line : string) : M World unit :=
  fun w =>
    if encodes out line
    then (Ok tt, mkWorld (batches w) (stdout w ++ [line])%list (ticks w))
    else (Raise (UnicodeEncodeError out line), w).

(** The body of the [try] of [process_document]. *)
Definition process_document_body (self : Processor) (file_path : string)
  (document_type : option string) : M World bool :=
  let path := file_path in
  (if negb (path_exists env path)
   then raise (mkExn FileNotFoundError ("File not found: " ++ file_path))
   else ret tt) ;;;
  let ext := str_lower (path_suffix env path) in
  (if negb (PyDict.mem SUPPORTED_EXTENSIONS ext)
   then raise (mkExn ValueError
                 ("Unsupported file type: " ++ ext ++ ". Supported types: "
                  ++ repr_list (PyDict.keys SUPPORTED_EXTENSIONS)))
   else ret tt) ;;;
  print ("Processing " ++ path_name env path ++ "...") ;;;
  loader_class <- match PyDict.get SUPPORTED_EXTENSIONS ext with
                  | Some c => ret c
                  | None => raise (mkExn KeyError ("'" ++ ext ++ "'"))
                  end ;;
  documents <- lift (loader_load env loader_class (path_str env path)) ;;
  documents <- add_metadata env path document_type documents ;;
  splits <- lift (split_documents env (chunk_size (text_splitter self))
                    (chunk_overlap (text_splitter self)) documents) ;;
  add_documents env splits ;;;
  print ("Successfully processed " ++ path_name env path ++ " ("
         ++ str_of_nat (length splits) ++ " chunks created)") ;;;
  ret true.

(** The handler prints too: an exception of its [print] leaves the
    function. *)
Definition process_document (self : Processor) (file_path : string)
  (document_type : option string) : M World bool :=
  try_except
    (process_document_body self file_path document_type)
    (fun e =>
       print ("Error processing document " ++ file_path ++ ": " ++ exn_str e) ;;;
       ret false).

(** The loop [for file_path in files]. *)
Fixpoint for_files (self : Processor) (files : list string)
  (document_type : option string) : M (Stats * World) unit :=
  match files with
  | [] => ret tt
  | file_path :: rest =>
      ok <- in_world (process_document self file_path document_type) ;;
      (if ok : bool
       then update_stats (fun s => mkStats (total s) (successful s + 1) (failed s))
       else update_stats (fun s => mkStats (total s) (successful s) (failed s + 1))) ;;;
      for_files self rest document_type
  end.

(** The loop [for ext, _ in self.SUPPORTED_EXTENSIONS.items()]. *)
Fixpoint for_extensions (self : Processor) (path : string) (exts : list string)
  (document_type : option string) : M (Stats * World) unit :=
  match exts with
  | [] => ret tt
  | ext :: rest =>
      files <- lift (path_glob env path ("**/*" ++ ext)) ;;
      update_stats (fun s => mkStats (total s + length files) (successful s) (failed s)) ;;;
      for_files self files document_type ;;;
      for_extensions self path rest document_type
  end.

Definition process_directory (self : Processor) (directory_path : string)
  (document_type : option string) : M World Stats :=
  fun w =>
    let stats := mkStats 0 0 0 in
    let path := directory_path in
    match
      try_except
        ((if negb (path_exists env path) || negb (path_is_dir env path)
          then raise (mkExn NotADirectoryError
                        ("Directory not found: " ++ directory_path))
          else ret tt) ;;;
         for_extensions self path (PyDict.keys SUPPORTED_EXTENSIONS) document_type)
        (fun e =>
           in_world (print ("Error processing directory " ++ directory_path
                            ++ ": " ++ exn_str e)))
        (stats, w)
    with
    | (Ok _, (stats', w')) => (Ok stats', w')
    | (Raise e, (_, w')) => (Raise e, w')
    end.

End Ingestion.

(** [processed env out str_lower self t files w outcomes w']: each file of
    [files] in turn was given to [process_document], which returned the
    corresponding value of [outcomes]. *)
Inductive processed (env : Env) (out : Stdout) (str_lower : string -> string)
  (self : Processor) (document_type : option string)
  : list string -> World -> list bool -> World -> Prop :=
| processed_nil w :
    processed env out str_lower self document_type [] w [] w
| processed_cons file_path rest w ok w1 oks w2 :
    process_document env out str_lower self file_path document_type w
    = (Ok ok, w1) ->
    processed env out str_lower self document_type rest w1 oks w2 ->
    processed env out str_lower self document_type (file_path :: rest) w
      (ok :: oks) w2.

End Strict.

(** ** Reading a trace *)

Module Observe.
Import Main.

(** The nodes the graph started, in order. *)
Definition entered (tr : Trace) : list string :=
  flat_map (fun e => match e with Enter n => [n] | _ => [] end) tr.

(** The text an assignment stores, when it stores a text. *)
Definition string_value (u : Update) : option string :=
  match u with
  | set_agent_outputs _ => None
  | set_current_step v | set_context v | set_query v | set_analysis v
  | set_draft v | set_feedback v | set_final_response v => Some v
  end.

(** The texts assigned to [state[key]], in order. *)
Definition assigned (key : string) (tr : Trace) : list string :=
  flat_map
    (fun e =>
       match e with
       | Assign u =>
           if String.eqb (key_of u) key
           then match string_value u with Some v => [v] | None => [] end
           else []
       | _ => []
       end) tr.

(** The values assigned to [state["current_step"]], in order. *)
Definition steps (tr : Trace) : list string := assigned "current_step" tr.

(** The keys of the state that were assigned, in order. *)
Definition assigned_keys (tr : Trace) : list string :=
  flat_map (fun e => match e with Assign u => [key_of u] | _ => [] end) tr.

(** The entries assigned in [state["agent_outputs"]], in order. *)
Definition output_entries (tr : Trace) : list (string * string) :=
  flat_map (fun e => match e with AssignOutput k f => [(k, f)] | _ => [] end) tr.

Definition output_keys (tr : Trace) : list string := map fst (output_entries tr).

(** The prompts sent to the language model, in order. *)
Definition prompts (tr : Trace) : list string :=
  flat_map (fun e => match e with Invoke p => [p] | _ => [] end) tr.

(** The searches asked of the vector store, in order. *)
Definition searches (tr : Trace) : list (string * nat) :=
  flat_map (fun e => match e with Search q k => [(q, k)] | _ => [] end) tr.

(** The events before the first [Enter], and then each node started with the
    events up to the next [Enter]. *)
Fixpoint split_at_enter (tr : Trace) : Trace * list (string * Trace) :=
  match tr with
  | [] => ([], [])
  | e :: rest =>
      match split_at_enter rest with
      | (pre, segs) =>
          match e with
          | Enter n => ([], (n, pre) :: segs)
          | _ => (e :: pre, segs)
          end
      end
  end.

Definition segments (tr : Trace) : list (string * Trace) := snd (split_at_enter tr).

(** For each node started, what [f] reads off its events. *)
Definition per_node {X} (f : Trace -> X) (tr : Trace) : list (string * X) :=
  map (fun seg => (fst seg, f (snd seg))) (segments tr).

(** How often [k] occurs in [l]. *)
Definition count (k : string) (l : list string) : nat :=
  length (filter (String.eqb k) l).

(** The order of the stages: the four nodes, then [END]. *)
Definition stage_order : list string :=
  ["retriever"; "researcher"; "writer"; "critic"; END].

Definition node_order : list string :=
  ["retriever"; "researcher"; "writer"; "critic"].

(** The place of a stage in [stage_order]. *)
Fixpoint index_in (l : list string) (s : string) : option nat :=
  match l with
  | [] => None
  | x :: l' => if String.eqb x s then Some 0 else option_map S (index_in l' s)
  end.

Definition stage_index (s : string) : option nat := index_in stage_order s.

(** The places are known and go up strictly. *)
Fixpoint increasing (l : list (option nat)) : bool :=
  match l with
  | Some a :: ((Some b :: _) as l') => Nat.ltb a b && increasing l'
  | [Some _] => true
  | [] => true
  | _ => false
  end.

(** [l] is an initial part of [full]. *)
Definition prefix_of {A} (l full : list A) : Prop := exists n, l = firstn n full.

End Observe.

(** ** Stub collaborators, used to run the code on concrete inputs *)

Module Demo.

Definition paris : Document := mkDocument "Paris is the capital of France." [].

(** A language model whose answer names the request it was given. *)
Definition answer (prompt : string) : string :=
  match prompt with
  | String "A" _ => "analysis"
  | String "D" _ => "draft"
  | String "R" _ => "feedback"
  | _ => "final"
  end.

(** An index that holds one passage, and a model that always answers. *)
Definition env : Main.Env :=
  Main.mkEnv (fun _ k => Ok (firstn k [paris])) (fun p => Ok (answer p)).

(** An empty index, and a model whose every answer is the empty text. *)
Definition silent_env : Main.Env :=
  Main.mkEnv (fun _ _ => Ok []) (fun _ => Ok "").

Definition boom : Exn := mkExn (OtherError "ConnectionError") "connection refused".

(** A model that is down. *)
Definition down_env : Main.Env :=
  Main.mkEnv (fun _ k => Ok (firstn k [paris])) (fun _ => Raise boom).

(** A model that answers the researcher and is down from the writer on. *)
Definition down_after_analysis_env : Main.Env :=
  Main.mkEnv (fun _ k => Ok (firstn k [paris]))
    (fun p => match p with
              | String "A" _ => Ok "analysis"
              | _ => Raise boom
              end).

(** A directory [docs] with a text file, a PDF file that cannot be read, a
    markdown file and a file of a type that is not supported. *)
Definition files : list (string * (string * string)) :=
  [ ("docs/a.txt", ("a.txt", ".txt"));
    ("docs/b.pdf", ("b.pdf", ".pdf"));
    ("docs/c.md", ("c.md", ".md"));
    ("docs/notes.docx", ("notes.docx", ".docx")) ].

Definition name_of (p : string) : string :=
  match PyDict.get files p with
  | Some ns => fst ns
  | None => p
  end.

Definition suffix_of (p : string) : string :=
  match PyDict.get files p with
  | Some ns => snd ns
  | None => ""
  end.

Definition glob (p pattern : string) : Result (list string) :=
  if String.eqb p "docs"
  then Ok (map fst
             (filter (fun f => String.eqb ("**/*" ++ snd (snd f)) pattern) files))
  else Ok [].

Definition load (c : Processor.Loader) (p : string) : Result (list Document) :=
  match c with
  | Processor.PyPDFLoader => Raise (mkExn (OtherError "PdfReadError") "EOF marker not found")
  | _ => Ok [mkDocument ("text of " ++ p) []]
  end.

Definition files_env : Processor.Env :=
  Processor.mkEnv
    (fun p => p)
    name_of
    suffix_of
    (fun p => String.eqb p "docs" || PyDict.mem files p)
    (fun p => String.eqb p "docs")
    glob
    load
    (fun _ _ docs => Ok docs)
    (fun _ _ => Ok tt)
    (fun n => "2024-01-01T00:00:0" ++ str_of_nat n).

Definition empty_world : Processor.World := Processor.mkWorld [] [] 0.

(** The byte 255, which no UTF-8 text holds. *)
Definition byte255 : string := String "255" "".

Fixpoint has_byte255 (s : string) : bool :=
  match s with
  | EmptyString => false
  | String c s' => Ascii.eqb c "255" || has_byte255 s'
  end.

(** A console that refuses the lines that hold the byte 255, as a strict
    UTF-8 stdout does, and shows the others. *)
Definition utf8_stdout : Strict.Stdout :=
  Strict.mkStdout (fun line => negb (has_byte255 line))
    (fun _ => "'utf-8' codec can't encode character: surrogates not allowed").

(** A directory [inbox] with three text files; the name of the second holds
    the byte 255. *)
Definition inbox : list (string * (string * string)) :=
  [ ("inbox/a.txt", ("a.txt", ".txt"));
    ("inbox/b" ++ byte255 ++ ".txt", ("b" ++ byte255 ++ ".txt", ".txt"));
    ("inbox/c.txt", ("c.txt", ".txt")) ].

Definition inbox_env : Processor.Env :=
  Processor.mkEnv
    (fun p => p)
    (fun p => match PyDict.get inbox p with Some ns => fst ns | None => p end)
    (fun p => match PyDict.get inbox p with Some ns => snd ns | None => "" end)
    (fun p => String.eqb p "inbox" || PyDict.mem inbox p)
    (fun p => String.eqb p "inbox")
    (fun p pattern =>
       if String.eqb p "inbox"
       then Ok (map fst
                  (filter (fun f => String.eqb ("**/*" ++ snd (snd f)) pattern)
                     inbox))
       else Ok [])
    (fun _ p => Ok [mkDocument ("text of " ++ p) []])
    (fun _ _ docs => Ok docs)
    (fun _ _ => Ok tt)
    (fun n => "2024-01-01T00:00:0" ++ str_of_nat n).


End Demo.

(** * Properties *)

(** ** Running the agents symbolically *)

Import Main Observe.

Arguments bind {W A B} m k w /.
Arguments ret {W A} a w /.
Arguments raise {W A} e w /.
Arguments lift {W A} r w /.
Arguments modify {W} f w /.
Arguments try_except {W A} m h w /.
Arguments emit e /.
Arguments similarity_search env q k /.
Arguments llm_invoke env prompt /.
Arguments assign u state /.
Arguments assign_output key fragment state /.
Arguments last_message_content state /.
Arguments get_query state /.
Arguments retriever_agent env state /.
Arguments researcher_agent env state /.
Arguments writer_agent env state /.
Arguments critic_agent env state /.
Arguments invoke rt g input /.
Arguments chain_invoke env rt input /.
Arguments Api.query_knowledge_base env rt q /.

(** The texts stay folded. *)
Arguments retriever_fragment : simpl never.
Arguments researcher_prompt : simpl never.
Arguments research_fragment : simpl never.
Arguments writer_prompt : simpl never.
Arguments writer_fragment : simpl never.
Arguments feedback_prompt : simpl never.
Arguments final_prompt : simpl never.
Arguments critic_fragment : simpl never.
Arguments response_fragment : simpl never.
Arguments String.concat : simpl never.
Arguments String.append : simpl never.

(** A scrutinee that is not itself a case analysis. *)
Ltac atomic x :=
  lazymatch x with
  | context [match _ with _ => _ end] => fail
  | _ => idtac
  end.

(** One step of a run: the next test the code makes is decided by a fact at
    hand, or else by cases. *)
Ltac run_step :=
  match goal with
  | H : ?x = _ |- context [match ?x with _ => _ end] => rewrite H
  | |- context [match ?x with _ => _ end] => atomic x; destruct x eqn:?
  end; cbn.

Ltac run_all := repeat run_step.

(** The property to prove of a run is set aside while the run unfolds. *)
Ltac run_cases outcome :=
  pattern outcome;
  match goal with
  | |- ?P _ =>
      let Q := fresh "Q" in
      let HQ := fresh "HQ" in
      remember P as Q eqn:HQ
  end.

Ltac run_done :=
  match goal with
  | HQ : ?Q = _ |- ?Q _ => rewrite HQ; clear HQ; cbn
  end.

Lemma rev_snoc_cons {A} (l : list A) (x : A) : rev (l ++ [x]) = x :: rev l.
Proof. now rewrite rev_app_distr. Qed.

(** Every text fragment ends with a newline, so none is empty. *)
Lemma lines_nonempty (l : list string) (x y : string) :
  lines (x :: y :: l) <> "".
Proof.
  unfold lines. cbn [String.concat].
  destruct x; cbn; discriminate.
Qed.

(** ** The order of the stage outputs *)

(** The keys of [agent_outputs] and the entries each node assigned, for a
    run that may have failed. *)
Lemma chain_invoke_outputs env rt init :
  agent_outputs init = None \/ agent_outputs init = Some [] ->
  match chain_invoke env rt init [] with
  | (Ok st, tr) =>
      option_map PyDict.keys (agent_outputs st)
      = Some ["retriever"; "research"; "writer"; "critic"; "response"]
      /\ per_node output_keys tr
         = [ ("retriever", ["retriever"]); ("researcher", ["research"]);
             ("writer", ["writer"]); ("critic", ["critic"; "response"]) ]
  | (Raise _, _) => True
  end.
Proof.
  intros Hao. run_cases (chain_invoke env rt init []).
  destruct rt, init as [ms cs cx rs fa ao qy an dr fb fr];
    cbn in Hao; destruct Hao as [-> | ->]; cbn.
  all: run_all.
  all: run_done.
  all: first [ exact I | split; reflexivity ].
Qed.

(** C1. A run that succeeds leaves [agent_outputs] with the keys retriever,
    research, writer, critic, response, in this order; the retriever, the
    researcher and the writer each assigned their one entry and the critic
    its two, in the order the nodes ran. The input is the one [api.py]
    builds, or any other whose [agent_outputs] is absent or empty. *)
Theorem C1_stage_outputs_order env rt init st tr :
  agent_outputs init = None \/ agent_outputs init = Some [] ->
  chain_invoke env rt init [] = (Ok st, tr) ->
  option_map PyDict.keys (agent_outputs st)
  = Some ["retriever"; "research"; "writer"; "critic"; "response"]
  /\ per_node output_keys tr
     = [ ("retriever", ["retriever"]); ("researcher", ["research"]);
         ("writer", ["writer"]); ("critic", ["critic"; "response"]) ].
Proof.
  intros Hao Hrun.
  pose proof (chain_invoke_outputs env rt init Hao) as H.
  rewrite Hrun in H. exact H.
Qed.

Lemma C1_witness :
  exists st tr,
    chain_invoke Demo.env Channels (api_input "Q") [] = (Ok st, tr)
    /\ option_map PyDict.keys (agent_outputs st)
       = Some ["retriever"; "research"; "writer"; "critic"; "response"].
Proof.
  eexists. eexists. split.
  - vm_compute. reflexivity.
  - refine (proj1 (C1_stage_outputs_order Demo.env Channels (api_input "Q")
                     _ _ (or_introl eq_refl) _)).
    vm_compute. reflexivity.
Defined.

(** ** The retrieval stage *)

(** C2. When the state has a last message and the index answers its query
    with the three best of the ranked list [ranked] (all of them when there
    are fewer), the retriever asks the index once, with k = 3, and sets
    [context] to these passages in rank order, joined by a blank line; zero
    passages give the empty context and no error. *)
Theorem C2_retrieved_context env state ms m ranked :
  messages state = Some (ms ++ [m])%list ->
  vectorstore_similarity_search env (content m) 3 = Ok (firstn 3 ranked) ->
  exists state' tr,
    retriever_agent env state [] = (Ok state', tr)
    /\ searches tr = [(content m, 3)]
    /\ context state'
       = Some (String.concat (nl ++ nl) (map page_content (firstn 3 ranked)))
    /\ (length ranked <= 3 ->
        context state' = Some (String.concat (nl ++ nl) (map page_content ranked)))
    /\ (ranked = [] -> context state' = Some "")
    /\ current_step state' = Some "researcher".
Proof.
  intros Hms Hsearch.
  assert (Hall : length ranked <= 3 -> firstn 3 ranked = ranked)
    by apply firstn_all2.
  assert (Hnil : ranked = [] -> firstn 3 ranked = []) by (intros ->; reflexivity).
  remember (firstn 3 ranked) as top eqn:Htop. clear Htop.
  destruct state as [ms0 cs cx rs fa ao qy an dr fb fr]. cbn in Hms. subst ms0.
  cbn. rewrite rev_snoc_cons. cbn. rewrite Hsearch. cbn.
  destruct ao as [d |]; cbn.
  all: eexists; eexists; split; [reflexivity | cbn ].
  all: repeat split; try reflexivity.
  all: intros H; first [ rewrite (Hall H) | rewrite (Hnil H) ]; reflexivity.
Qed.

Lemma C2_witness :
  exists state' tr,
    retriever_agent Demo.env (api_input "What is the capital of France?") []
    = (Ok state', tr)
    /\ context state' = Some "Paris is the capital of France.".
Proof.
  destruct (C2_retrieved_context Demo.env
              (api_input "What is the capital of France?") []
              (HumanMessage "What is the capital of France?") [Demo.paris]
              eq_refl eq_refl)
    as (state' & tr & Hrun & _ & Hctx & _).
  exists state', tr. split; [exact Hrun | exact Hctx].
Defined.

(** ** Retrieval that finds nothing *)

(** C3, as stated, fails: with an empty index and a model whose answers are
    empty, the run completes (every node ran, [current_step] is [END]) and
    the final answer it stores is the empty text. *)
Lemma C3_counterexample :
  exists st tr,
    chain_invoke Demo.silent_env InPlace (api_input "Q") [] = (Ok st, tr)
    /\ searches tr = [("Q", 3)]
    /\ context st = Some ""
    /\ entered tr = node_order
    /\ current_step st = Some END
    /\ assigned "final_response" tr = [""]
    /\ final_response st = Some "".
Proof.
  eexists. eexists. split.
  - vm_compute. reflexivity.
  - repeat split; vm_compute; reflexivity.
Qed.

(** C3, amended. When the index returns no passage for the query and the
    model answers every prompt, the run from the input of [api.py] completes:
    the context is empty, the four nodes ran, [current_step] is [END]. The
    final answer is the model's answer to the last of the four prompts,
    whatever it is; the fragment stored under ["response"] embeds it and is
    not empty. *)
Theorem C3_zero_results_complete env answer rt q :
  vectorstore_similarity_search env q 3 = Ok [] ->
  (forall p, llm_invoke_result env p = Ok (answer p)) ->
  exists st tr p1 p2 p3 p4,
    chain_invoke env rt (api_input q) [] = (Ok st, tr)
    /\ context st = Some ""
    /\ entered tr = node_order
    /\ current_step st = Some END
    /\ prompts tr = [p1; p2; p3; p4]
    /\ assigned "final_response" tr = [answer p4]
    /\ final_response st
       = match rt with InPlace => Some (answer p4) | Channels => None end
    /\ option_map (fun d => PyDict.get d "response") (agent_outputs st)
       = Some (Some (response_fragment (answer p4)))
    /\ response_fragment (answer p4) <> "".
Proof.
  intros Hsearch Hllm.
  destruct rt; cbn.
  all: rewrite Hsearch; cbn.
  all: repeat first [ rewrite Hllm; cbn | run_step ].
  all: do 6 eexists; split; [ reflexivity | ].
  all: repeat split; try reflexivity.
  all: apply lines_nonempty.
Qed.

Lemma C3_witness :
  exists st tr,
    chain_invoke Demo.silent_env Channels (api_input "Q") [] = (Ok st, tr)
    /\ current_step st = Some END.
Proof.
  destruct (C3_zero_results_complete Demo.silent_env (fun _ => "") Channels "Q"
              eq_refl (fun _ => eq_refl))
    as (st & tr & p1 & p2 & p3 & p4 & Hrun & _ & _ & Hend & _).
  exists st, tr. split; [exact Hrun | exact Hend].
Defined.

(** ** A model that fails during the analysis *)

(** C4, as stated, fails: the error the endpoint raises does not name the
    stage. A model that is down during the analysis and a model that is down
    during the draft give the same error, status 500 with the cause as its
    text, while the runs stopped in different nodes. *)
Lemma C4_counterexample :
  let analysis_fails :=
    Api.query_knowledge_base Demo.down_env InPlace (Api.mkQuery "Q") [] in
  let draft_fails :=
    Api.query_knowledge_base Demo.down_after_analysis_env InPlace
      (Api.mkQuery "Q") [] in
  fst analysis_fails
  = Raise (mkExn (HTTPException 500) "Error processing query: connection refused")
  /\ entered (snd analysis_fails) = ["retriever"; "researcher"]
  /\ fst draft_fails = fst analysis_fails
  /\ entered (snd draft_fails) = ["retriever"; "researcher"; "writer"].
Proof.
  cbv zeta. repeat split; vm_compute; reflexivity.
Qed.

(** C4, amended. When the model fails on the prompt of the researcher, the
    graph raises the model's exception and the endpoint raises an
    [HTTPException] with status 500 whose text is the cause; the error
    carries no stage. The run stopped in the researcher: the writer and the
    critic did not start, the model was asked once, and [analysis], [draft],
    [feedback] and [final_response] were never assigned. *)
Theorem C4_analysis_failure_halts env rt q docs e :
  vectorstore_similarity_search env q 3 = Ok docs ->
  llm_invoke_result env
    (researcher_prompt q (String.concat (nl ++ nl) (map page_content docs)))
  = Raise e ->
  exists tr,
    chain_invoke env rt (api_input q) [] = (Raise e, tr)
    /\ Api.query_knowledge_base env rt (Api.mkQuery q) []
       = (Raise (mkExn (HTTPException 500)
                   ("Error processing query: " ++ exn_str e)), tr)
    /\ entered tr = ["retriever"; "researcher"]
    /\ prompts tr
       = [researcher_prompt q (String.concat (nl ++ nl) (map page_content docs))]
    /\ assigned "analysis" tr = []
    /\ assigned "draft" tr = []
    /\ assigned "feedback" tr = []
    /\ assigned "final_response" tr = []
    /\ output_keys tr = ["retriever"].
Proof.
  intros Hsearch Hllm.
  destruct rt; cbn.
  all: rewrite Hsearch; cbn.
  all: try (destruct (nonempty q) eqn:Hq; cbn).
  all: rewrite Hllm; cbn.
  all: eexists; repeat split; reflexivity.
Qed.

Lemma C4_witness :
  exists tr,
    chain_invoke Demo.down_env Channels (api_input "Q") [] = (Raise Demo.boom, tr)
    /\ entered tr = ["retriever"; "researcher"].
Proof.
  destruct (C4_analysis_failure_halts Demo.down_env Channels "Q" [Demo.paris]
              Demo.boom eq_refl eq_refl)
    as (tr & Hrun & _ & Hentered & _).
  exists tr. split; [exact Hrun | exact Hentered].
Defined.

(** ** The progress of [current_step] *)

Ltac prefix_length :=
  first [ exists 0; reflexivity | exists 1; reflexivity | exists 2; reflexivity
        | exists 3; reflexivity | exists 4; reflexivity | exists 5; reflexivity ].

(** The edges leave the critic without a successor. *)
Lemma critic_is_last env : successors (workflow env) "critic" = [].
Proof. reflexivity. Qed.

(** C8. In every run, from any input and whether it succeeds or not, the
    nodes start in the order retriever, researcher, writer, critic, and the
    values [current_step] takes, counted from the retriever the run starts
    in, follow the order retriever, researcher, writer, critic, END without
    a step back: each node that completes assigns the stage after its own,
    and the node of that stage then starts, whatever the state holds.
    A run that succeeds went through all of them and ends with
    [current_step] at [END]; the critic has no successor, so no node runs
    after that. *)
Theorem C8_stage_progress env rt init :
  let outcome := chain_invoke env rt init [] in
  let tr := snd outcome in
  prefix_of (entered tr) node_order
  /\ prefix_of ("retriever" :: steps tr) stage_order
  /\ increasing (map stage_index ("retriever" :: steps tr)) = true
  /\ length (entered tr) = Nat.min 4 (S (length (steps tr)))
  /\ (forall st, fst outcome = Ok st ->
        entered tr = node_order
        /\ "retriever" :: steps tr = stage_order
        /\ current_step st = Some END
        /\ per_node steps tr
           = [ ("retriever", ["researcher"]); ("researcher", ["writer"]);
               ("writer", ["critic"]); ("critic", [END]) ])
  /\ successors (workflow env) "critic" = [].
Proof.
  cbv zeta. run_cases (chain_invoke env rt init []).
  destruct rt, init as [ms cs cx rs fa ao qy an dr fb fr]; cbn.
  all: run_all.
  all: run_done.
  all: repeat match goal with
         | |- _ /\ _ => split
         | |- prefix_of _ _ => prefix_length
         | |- forall _, _ => intros st Hst; try discriminate Hst;
                             injection Hst as <-
         | |- _ => reflexivity
         end.
Qed.

Lemma C8_witness :
  "retriever" :: steps (snd (chain_invoke Demo.env InPlace (test_input "Q") []))
  = stage_order.
Proof.
  pose proof (C8_stage_progress Demo.env InPlace (test_input "Q")) as H.
  cbv zeta in H. destruct H as (_ & _ & _ & _ & Hok & _).
  refine (proj1 (proj2 (Hok _ _))).
  vm_compute. reflexivity.
Defined.

(** ** Which keys a run assigns, and how often *)

Lemma output_keys_nodup :
  NoDup ["retriever"; "research"; "writer"; "critic"; "response"].
Proof.
  repeat constructor; cbn; intuition discriminate.
Qed.

(** C9, as stated, fails on two counts. [current_step] is assigned by each
    of the four nodes, every time to a new value; and the two entries of the
    critic are ["critic"] and ["response"]: no entry is called
    ["critique"]. *)
Lemma C9_counterexample :
  exists st tr,
    chain_invoke Demo.env InPlace (api_input "Q") [] = (Ok st, tr)
    /\ count "current_step" (assigned_keys tr) = 4
    /\ per_node steps tr
       = [ ("retriever", ["researcher"]); ("researcher", ["writer"]);
           ("writer", ["critic"]); ("critic", [END]) ]
    /\ per_node output_keys tr
       = [ ("retriever", ["retriever"]); ("researcher", ["research"]);
           ("writer", ["writer"]); ("critic", ["critic"; "response"]) ]
    /\ option_map (fun d => PyDict.mem d "critique") (agent_outputs st)
       = Some false.
Proof.
  eexists. eexists. split.
  - vm_compute. reflexivity.
  - repeat split; vm_compute; reflexivity.
Qed.

Ltac repeat_length :=
  first [ exists 0; reflexivity | exists 1; reflexivity
        | exists 2; reflexivity | exists 3; reflexivity ].

Lemma chain_invoke_assignments env rt init :
  agent_outputs init = None \/ agent_outputs init = Some [] ->
  match chain_invoke env rt init [] with
  | (Ok st, tr) =>
      map (fun k => (k, count k (assigned_keys tr)))
        ["context"; "analysis"; "draft"; "feedback"; "final_response";
         "current_step"]
      = [ ("context", 1); ("analysis", 1); ("draft", 1); ("feedback", 1);
          ("final_response", 1); ("current_step", 4) ]
      /\ count "agent_outputs" (assigned_keys tr) <= 1
      /\ per_node steps tr
         = [ ("retriever", ["researcher"]); ("researcher", ["writer"]);
             ("writer", ["critic"]); ("critic", [END]) ]
      /\ (exists q n, assigned "query" tr = repeat q (S n))
      /\ NoDup (output_keys tr)
      /\ agent_outputs st = Some (output_entries tr)
      /\ per_node output_keys tr
         = [ ("retriever", ["retriever"]); ("researcher", ["research"]);
             ("writer", ["writer"]); ("critic", ["critic"; "response"]) ]
  | (Raise _, _) => True
  end.
Proof.
  intros Hao. run_cases (chain_invoke env rt init []).
  destruct rt, init as [ms cs cx rs fa ao qy an dr fb fr];
    cbn in Hao; destruct Hao as [-> | ->]; cbn.
  all: run_all.
  all: run_done.
  all: try exact I.
  all: repeat match goal with
         | |- _ /\ _ => split
         | |- _ <= _ => cbn; lia
         | |- exists _ _, _ => eexists; repeat_length
         | |- NoDup _ => exact output_keys_nodup
         | |- _ => reflexivity
         end.
Qed.

(** C9, amended. In a run that succeeds, [context], [analysis], [draft],
    [feedback] and [final_response] are each assigned once and
    [agent_outputs] at most once; [current_step] is assigned four times, once
    by every node, to the stage that follows; [query] is assigned by the
    retriever and again by a later node that does not find it, each time to
    the same value. The keys of [agent_outputs] are distinct and in the order
    the nodes ran, no entry is assigned twice (the dict at the end is the
    list of the entries as they were assigned), and each node assigns one
    entry, except the critic, which assigns two: ["critic"] and
    ["response"]. *)
Theorem C9_assigned_once env rt init st tr :
  agent_outputs init = None \/ agent_outputs init = Some [] ->
  chain_invoke env rt init [] = (Ok st, tr) ->
  map (fun k => (k, count k (assigned_keys tr)))
    ["context"; "analysis"; "draft"; "feedback"; "final_response";
     "current_step"]
  = [ ("context", 1); ("analysis", 1); ("draft", 1); ("feedback", 1);
      ("final_response", 1); ("current_step", 4) ]
  /\ count "agent_outputs" (assigned_keys tr) <= 1
  /\ per_node steps tr
     = [ ("retriever", ["researcher"]); ("researcher", ["writer"]);
         ("writer", ["critic"]); ("critic", [END]) ]
  /\ (exists q n, assigned "query" tr = repeat q (S n))
  /\ NoDup (output_keys tr)
  /\ agent_outputs st = Some (output_entries tr)
  /\ per_node output_keys tr
     = [ ("retriever", ["retriever"]); ("researcher", ["research"]);
         ("writer", ["writer"]); ("critic", ["critic"; "response"]) ].
Proof.
  intros Hao Hrun.
  pose proof (chain_invoke_assignments env rt init Hao) as H.
  rewrite Hrun in H. exact H.
Qed.

Lemma C9_witness :
  exists st tr,
    chain_invoke Demo.env Channels (test_input "Q") [] = (Ok st, tr)
    /\ agent_outputs st = Some (output_entries tr).
Proof.
  eexists. eexists. split.
  - vm_compute. reflexivity.
  - refine (proj1 (proj2 (proj2 (proj2 (proj2 (proj2
             (C9_assigned_once Demo.env Channels (test_input "Q")
                _ _ (or_intror eq_refl) _))))))).
    vm_compute. reflexivity.
Defined.

(** ** More on the agents and the endpoint *)

(** Lookup after assignment in an insertion-ordered dict. *)
Lemma get_set_same {V} (d : PyDict.t V) k v :
  PyDict.get (PyDict.set d k v) k = Some v.
Proof.
  induction d as [| [k' v'] d IH]; cbn.
  - now rewrite String.eqb_refl.
  - destruct (String.eqb k' k) eqn:E; cbn; rewrite E; [reflexivity | exact IH].
Qed.

Lemma get_set_other {V} (d : PyDict.t V) k k' v :
  k <> k' -> PyDict.get (PyDict.set d k v) k' = PyDict.get d k'.
Proof.
  intros Hne. induction d as [| [k0 v0] d IH]; cbn.
  - destruct (String.eqb_spec k k'); [contradiction | reflexivity].
  - destruct (String.eqb_spec k0 k) as [-> | Hk]; cbn.
    + destruct (String.eqb_spec k k'); [contradiction | reflexivity].
    + destruct (String.eqb k0 k'); [reflexivity | exact IH].
Qed.

(** Assigning a key keeps the order of the keys, and puts a new key last. *)
Lemma keys_set {V} (d : PyDict.t V) k v :
  PyDict.keys (PyDict.set d k v)
  = if PyDict.mem d k then PyDict.keys d else (PyDict.keys d ++ [k])%list.
Proof.
  unfold PyDict.mem, PyDict.keys.
  induction d as [| [k' v'] d IH]; cbn.
  - reflexivity.
  - destruct (String.eqb k' k); cbn; [reflexivity | ].
    rewrite IH. destruct (PyDict.get d k); reflexivity.
Qed.

(** X1. A run that succeeds returns [messages], [research_summary] and
    [final_answer] as the input had them: no agent assigns these keys, the
    answer is stored under [final_response] and the analysis under
    [analysis]. *)
Theorem run_keeps_declared_inputs (env : Main.Env) rt init st tr :
  chain_invoke env rt init [] = (Ok st, tr) ->
  messages st = messages init
  /\ research_summary st = research_summary init
  /\ final_answer st = final_answer init.
Proof.
  intros Hrun.
  assert (H : match chain_invoke env rt init [] with
              | (Ok st, _) =>
                  messages st = messages init
                  /\ research_summary st = research_summary init
                  /\ final_answer st = final_answer init
              | (Raise _, _) => True
              end).
  { run_cases (chain_invoke env rt init []).
    destruct rt, init as [ms cs cx rs fa ao qy an dr fb fr]; cbn.
    all: run_all.
    all: run_done.
    all: first [ exact I | repeat split; reflexivity ]. }
  rewrite Hrun in H. exact H.
Qed.

Lemma run_keeps_declared_inputs_witness :
  exists st tr,
    chain_invoke Demo.env InPlace (test_input "Q") [] = (Ok st, tr)
    /\ final_answer st = Some "".
Proof.
  eexists. eexists. split.
  - vm_compute. reflexivity.
  - refine (proj2 (proj2 (run_keeps_declared_inputs Demo.env InPlace
                            (test_input "Q") _ _ _))).
    vm_compute. reflexivity.
Defined.

(** X2. An input without a last message fails in the retriever before
    anything else happens: a missing [messages] key raises [KeyError], an
    empty list raises [IndexError], and neither the index nor the model is
    asked. *)
Theorem run_without_message (env : Main.Env) rt init :
  (messages init = None ->
   chain_invoke env rt init []
   = (Raise (mkExn KeyError "'messages'"), [Enter "retriever"]))
  /\ (messages init = Some [] ->
      chain_invoke env rt init []
      = (Raise (mkExn IndexError "list index out of range"),
         [Enter "retriever"])).
Proof.
  split; intros Hms.
  all: destruct rt, init as [ms cs cx rs fa ao qy an dr fb fr];
    cbn in Hms; subst ms; reflexivity.
Qed.

Lemma run_without_message_witness :
  chain_invoke Demo.env Channels
    (mkState (Some []) None None None None None None None None None None) []
  = (Raise (mkExn IndexError "list index out of range"), [Enter "retriever"]).
Proof.
  exact (proj2 (run_without_message Demo.env Channels
                  (mkState (Some []) None None None None None None None None
                     None None)) eq_refl).
Defined.

(** X3. When the index fails on the query, the run stops in the retriever
    with the index's exception: the search is the only thing that happened,
    no key is assigned and the model is never asked. The endpoint turns the
    exception into status 500. *)
Theorem index_failure_halts (env : Main.Env) rt init ms m e :
  messages init = Some (ms ++ [m])%list ->
  vectorstore_similarity_search env (content m) 3 = Raise e ->
  chain_invoke env rt init []
  = (Raise e, [Enter "retriever"; Search (content m) 3])
  /\ (init = api_input (content m) ->
      Api.query_knowledge_base env rt (Api.mkQuery (content m)) []
      = (Raise (mkExn (HTTPException 500)
                  ("Error processing query: " ++ exn_str e)),
         [Enter "retriever"; Search (content m) 3])).
Proof.
  intros Hms Hsearch.
  assert (Hrun : chain_invoke env rt init []
                 = (Raise e, [Enter "retriever"; Search (content m) 3])).
  { destruct rt, init as [ms0 cs cx rs fa ao qy an dr fb fr];
      cbn in Hms; subst ms0; cbn.
    all: rewrite rev_snoc_cons; cbn; rewrite Hsearch; reflexivity. }
  split; [exact Hrun | ].
  intros ->. cbn in Hrun |- *.
  destruct rt; cbn in Hrun |- *; rewrite Hsearch in *; reflexivity.
Qed.

Lemma index_failure_halts_witness :
  chain_invoke (Main.mkEnv (fun _ _ => Raise Demo.boom) (fun _ => Ok ""))
    InPlace (api_input "Q") []
  = (Raise Demo.boom, [Enter "retriever"; Search "Q" 3]).
Proof.
  exact (proj1 (index_failure_halts
                  (Main.mkEnv (fun _ _ => Raise Demo.boom) (fun _ => Ok ""))
                  InPlace (api_input "Q") [] (HumanMessage "Q") Demo.boom
                  eq_refl eq_refl)).
Defined.

(** X4. An agent that raises has stored nothing of its own: whatever made
    it fail (no message, the index, the model), it has assigned no key besides
    [query] and no entry of [agent_outputs]. The assignments come after the
    calls that can fail; [agent_outputs] is taken to exist, as it does once
    the retriever has run. *)
Theorem failed_agent_assigns_nothing (env : Main.Env) agent s d e tr :
  In agent [ retriever_agent env; researcher_agent env; writer_agent env;
             critic_agent env ] ->
  agent_outputs s = Some d ->
  agent s [] = (Raise e, tr) ->
  filter (fun k => negb (String.eqb k "query")) (assigned_keys tr) = []
  /\ output_entries tr = [].
Proof.
  intros Hagent Hao.
  destruct s as [ms cs cx rs fa ao qy an dr fb fr]. cbn in Hao. subst ao.
  cbn in Hagent.
  destruct Hagent as [<- | [<- | [<- | [<- | []]]]].
  all: match goal with
       | |- ?run = _ -> _ => run_cases run
       end.
  all: cbn; run_all.
  all: run_done; intros Hrun; try discriminate Hrun.
  all: injection Hrun as <- <-; split; reflexivity.
Qed.

Lemma failed_agent_assigns_nothing_witness :
  exists tr,
    critic_agent Demo.down_env (test_input "Q") [] = (Raise Demo.boom, tr)
    /\ output_entries tr = [].
Proof.
  eexists. split.
  - vm_compute. reflexivity.
  - refine (proj2 (failed_agent_assigns_nothing Demo.down_env
                     (critic_agent Demo.down_env) (test_input "Q") []
                     Demo.boom _ _ eq_refl _)).
    + cbn. tauto.
    + vm_compute. reflexivity.
Defined.

(** X5. The researcher, the writer and the critic do not create
    [agent_outputs]: on a state without it they never succeed. When the model
    answered every prompt, the failure is [KeyError: 'agent_outputs'], raised
    after the model was asked and [current_step] was assigned. *)
Theorem agent_needs_agent_outputs (env : Main.Env) agent s r tr :
  In agent [ researcher_agent env; writer_agent env; critic_agent env ] ->
  agent_outputs s = None ->
  agent s [] = (r, tr) ->
  (exists e, r = Raise e)
  /\ (prompts tr <> [] ->
      (forall p, In p (prompts tr) -> exists a, llm_invoke_result env p = Ok a) ->
      r = Raise (mkExn KeyError "'agent_outputs'")
      /\ In "current_step" (assigned_keys tr)).
Proof.
  intros Hagent Hao.
  destruct s as [ms cs cx rs fa ao qy an dr fb fr]. cbn in Hao. subst ao.
  cbn in Hagent.
  destruct Hagent as [<- | [<- | [<- | []]]].
  all: match goal with
       | |- ?run = _ -> _ => run_cases run
       end.
  all: cbn; run_all.
  all: run_done; intros Hrun; injection Hrun as <- <-.
  all: split; [eexists; reflexivity | ].
  all: cbn; intros Hasked Hanswered.
  all: try (now elim Hasked).
  all: try match goal with
         | H : llm_invoke_result _ ?p = Raise _ |- _ =>
             destruct (Hanswered p) as [a' Ha']; [ cbn; auto | ];
             rewrite H in Ha'; discriminate Ha'
         end.
  all: split; [reflexivity | cbn; auto].
Qed.

Lemma agent_needs_agent_outputs_witness :
  exists tr,
    researcher_agent Demo.env (api_input "Q") []
    = (Raise (mkExn KeyError "'agent_outputs'"), tr)
    /\ In "current_step" (assigned_keys tr).
Proof.
  eexists. split.
  - vm_compute. reflexivity.
  - refine (proj2 (proj2 (agent_needs_agent_outputs Demo.env
                     (researcher_agent Demo.env) (api_input "Q") _ _ _
                     eq_refl _) _ _)).
    + cbn. tauto.
    + vm_compute. reflexivity.
    + vm_compute. discriminate.
    + intros p _. eexists. reflexivity.
Defined.

(** What a successful run asked and stored, for a run that may have failed. *)
Lemma chain_invoke_data_flow (env : Main.Env) rt init ms m :
  messages init = Some (ms ++ [m])%list ->
  agent_outputs init = None \/ agent_outputs init = Some [] ->
  match chain_invoke env rt init [] with
  | (Ok st, tr) =>
      exists docs a d fb final,
        vectorstore_similarity_search env (content m) 3 = Ok docs
        /\ prompts tr
           = (let q := content m in
              let ctx := String.concat (nl ++ nl) (map page_content docs) in
              let seen_a := match rt with InPlace => a | Channels => "" end in
              let seen_d := match rt with InPlace => d | Channels => "" end in
              [ researcher_prompt q ctx; writer_prompt q ctx seen_a;
                feedback_prompt q ctx seen_a seen_d; final_prompt q seen_d fb ])
        /\ map (llm_invoke_result env) (prompts tr) = [Ok a; Ok d; Ok fb; Ok final]
        /\ output_entries tr
           = [ ("retriever",
                retriever_fragment (length docs)
                  (String.concat (nl ++ nl) (map page_content docs)));
               ("research", research_fragment a (content m));
               ("writer", writer_fragment d);
               ("critic", critic_fragment fb);
               ("response", response_fragment final) ]
        /\ agent_outputs st = Some (output_entries tr)
  | (Raise _, _) => True
  end.
Proof.
  intros Hms Hao.
  pose proof (rev_snoc_cons ms m) as Hrev.
  run_cases (chain_invoke env rt init []).
  destruct rt, init as [ms0 cs cx rs fa ao qy an dr fb0 fr];
    cbn in Hms, Hao; subst ms0; destruct Hao as [-> | ->]; cbn.
  all: run_all.
  all: run_done; try exact I.
  all: match goal with
       | H1 : vectorstore_similarity_search _ _ _ = Ok ?docs,
         H2 : llm_invoke_result _ (researcher_prompt _ _) = Ok ?a,
         H3 : llm_invoke_result _ (writer_prompt _ _ _) = Ok ?d,
         H4 : llm_invoke_result _ (feedback_prompt _ _ _ _) = Ok ?fb,
         H5 : llm_invoke_result _ (final_prompt _ _ _) = Ok ?final |- _ =>
           exists docs, a, d, fb, final; cbn;
           rewrite ?H2, ?H3, ?H4, ?H5
       end.
  all: repeat match goal with |- _ /\ _ => split end; reflexivity.
Qed.

(** X6. How a run that succeeds passes its work on. The researcher is asked
    about the query and the retrieved context; the prompt of the critic's
    second call carries the feedback its first call returned; the five
    entries of [agent_outputs] are the fragments built from the passages and
    from the four answers of the model. When the graph hands the states on as
    they are, the writer's prompt carries the analysis and the critic's the
    analysis and the draft; when it keeps the declared keys only, [analysis]
    and [draft] are not among them and these prompts carry the empty text in
    their place. *)
Theorem successful_run_data_flow (env : Main.Env) rt init ms m st tr :
  messages init = Some (ms ++ [m])%list ->
  agent_outputs init = None \/ agent_outputs init = Some [] ->
  chain_invoke env rt init [] = (Ok st, tr) ->
  exists docs a d fb final,
    vectorstore_similarity_search env (content m) 3 = Ok docs
    /\ prompts tr
       = (let q := content m in
          let ctx := String.concat (nl ++ nl) (map page_content docs) in
          let seen_a := match rt with InPlace => a | Channels => "" end in
          let seen_d := match rt with InPlace => d | Channels => "" end in
          [ researcher_prompt q ctx; writer_prompt q ctx seen_a;
            feedback_prompt q ctx seen_a seen_d; final_prompt q seen_d fb ])
    /\ map (llm_invoke_result env) (prompts tr) = [Ok a; Ok d; Ok fb; Ok final]
    /\ output_entries tr
       = [ ("retriever",
            retriever_fragment (length docs)
              (String.concat (nl ++ nl) (map page_content docs)));
           ("research", research_fragment a (content m));
           ("writer", writer_fragment d);
           ("critic", critic_fragment fb);
           ("response", response_fragment final) ]
    /\ agent_outputs st = Some (output_entries tr).
Proof.
  intros Hms Hao Hrun.
  pose proof (chain_invoke_data_flow env rt init ms m Hms Hao) as H.
  rewrite Hrun in H. exact H.
Qed.

Lemma successful_run_data_flow_witness :
  exists st tr,
    chain_invoke Demo.env Channels (api_input "Q") [] = (Ok st, tr)
    /\ nth_error (prompts tr) 1
       = Some (writer_prompt "Q" "Paris is the capital of France." "").
Proof.
  eexists. eexists. split.
  - vm_compute. reflexivity.
  - destruct (successful_run_data_flow Demo.env Channels (api_input "Q") []
                (HumanMessage "Q") _ _ eq_refl (or_introl eq_refl)
                ltac:(vm_compute; reflexivity))
      as (docs & a & d & fb & final & Hdocs & Hprompts & _).
    injection Hdocs as <-. rewrite Hprompts. reflexivity.
Defined.

(** X7. The endpoint adds nothing to the run but its wrapping. When the run
    succeeds, the response is the fragments of [agent_outputs] in the order
    they were assigned, joined by newlines; when the run raises, whatever the
    exception, the endpoint raises [HTTPException] with status 500 and the
    cause in its text. *)
Theorem endpoint_mirrors_run (env : Main.Env) rt q :
  match chain_invoke env rt (api_input q) [] with
  | (Ok st, tr) =>
      Api.query_knowledge_base env rt (Api.mkQuery q) []
      = (Ok (String.concat nl (map snd (output_entries tr))), tr)
  | (Raise e, tr) =>
      Api.query_knowledge_base env rt (Api.mkQuery q) []
      = (Raise (mkExn (HTTPException 500)
                  ("Error processing query: " ++ exn_str e)), tr)
  end.
Proof.
  destruct rt; cbn.
  all: run_all.
  all: reflexivity.
Qed.

(** Five assignments in a row to a dict that may hold entries already. *)
Lemma five_assignments (d : PyDict.t string) f1 f2 f3 f4 f5 :
  let keys5 := ["retriever"; "research"; "writer"; "critic"; "response"] in
  let final :=
    PyDict.set (PyDict.set (PyDict.set (PyDict.set (PyDict.set d
      "retriever" f1) "research" f2) "writer" f3) "critic" f4) "response" f5 in
  (exists added,
      PyDict.keys final = (PyDict.keys d ++ added)%list /\ incl added keys5)
  /\ (forall k, ~ In k keys5 -> PyDict.get final k = PyDict.get d k)
  /\ (forall k, In k keys5 ->
        PyDict.get final k
        = PyDict.get [ ("retriever", f1); ("research", f2); ("writer", f3);
                       ("critic", f4); ("response", f5) ] k).
Proof.
  cbv zeta. split; [ | split ].
  - rewrite !keys_set.
    repeat match goal with
           | |- context [if ?b then _ else _] => destruct b
           end.
    all: rewrite <- ?app_assoc.
    all: first [ exists []; split; [now rewrite app_nil_r | ]
               | eexists; split; [reflexivity | ] ].
    all: intros x Hx; cbn in Hx |- *; tauto.
  - intros k Hk.
    rewrite !get_set_other; [reflexivity | | | | | ].
    all: intros <-; apply Hk; cbn; tauto.
  - intros k Hk. cbn in Hk.
    destruct Hk as [<- | [<- | [<- | [<- | [<- | []]]]]].
    all: repeat first [ rewrite get_set_same | rewrite get_set_other by discriminate ].
    all: reflexivity.
Qed.

Lemma chain_invoke_existing_outputs (env : Main.Env) rt init d :
  agent_outputs init = Some d ->
  match chain_invoke env rt init [] with
  | (Ok st, tr) =>
      let keys5 := ["retriever"; "research"; "writer"; "critic"; "response"] in
      exists final,
        agent_outputs st = Some final
        /\ (exists added,
               PyDict.keys final = (PyDict.keys d ++ added)%list
               /\ incl added keys5)
        /\ (forall k, ~ In k keys5 -> PyDict.get final k = PyDict.get d k)
        /\ (forall k, In k keys5 ->
              PyDict.get final k = PyDict.get (output_entries tr) k)
  | (Raise _, _) => True
  end.
Proof.
  intros Hao.
  run_cases (chain_invoke env rt init []).
  destruct rt, init as [ms cs cx rs fa ao qy an dr fb fr];
    cbn in Hao; subst ao; cbn.
  all: run_all.
  all: run_done; try exact I.
  all: eexists; split; [reflexivity | apply five_assignments].
Qed.

(** X8. Entries that [agent_outputs] holds before a run survive it. The run
    assigns its five keys and no other: the keys present before keep their
    place, new keys come after them, every other key keeps its value, and each
    of the five holds the fragment the run assigned to it. *)
Theorem existing_outputs_preserved (env : Main.Env) rt init d st tr :
  agent_outputs init = Some d ->
  chain_invoke env rt init [] = (Ok st, tr) ->
  let keys5 := ["retriever"; "research"; "writer"; "critic"; "response"] in
  exists final,
    agent_outputs st = Some final
    /\ (exists added,
           PyDict.keys final = (PyDict.keys d ++ added)%list
           /\ incl added keys5)
    /\ (forall k, ~ In k keys5 -> PyDict.get final k = PyDict.get d k)
    /\ (forall k, In k keys5 ->
          PyDict.get final k = PyDict.get (output_entries tr) k).
Proof.
  intros Hao Hrun.
  pose proof (chain_invoke_existing_outputs env rt init d Hao) as H.
  rewrite Hrun in H. exact H.
Qed.

Lemma existing_outputs_preserved_witness :
  exists st tr final,
    chain_invoke Demo.env InPlace
      (mkState (Some [HumanMessage "Q"]) None None None None
         (Some [("response", "old"); ("note", "kept")]) None None None None None)
      [] = (Ok st, tr)
    /\ agent_outputs st = Some final
    /\ PyDict.get final "note" = Some "kept".
Proof.
  destruct (existing_outputs_preserved Demo.env InPlace
              (mkState (Some [HumanMessage "Q"]) None None None None
                 (Some [("response", "old"); ("note", "kept")])
                 None None None None None)
              [("response", "old"); ("note", "kept")] _ _ eq_refl
              ltac:(vm_compute; reflexivity))
    as (final & Hfinal & _ & Hother & _).
  eexists. eexists. exists final.
  split; [vm_compute; reflexivity | ]. split; [exact Hfinal | ].
  rewrite Hother; [reflexivity | ].
  cbn. intuition discriminate.
Defined.

(** ** Ingestion: one document *)

Import Processor.

Arguments print line /.
Arguments now env /.
Arguments add_documents env splits /.
Arguments process_document_body env self file_path document_type /.
Arguments in_world {A} m sw /.
Arguments update_stats f /.
Arguments repr_list : simpl never.
Arguments PyDict.get : simpl never.
Arguments PyDict.mem {V} d k /.
Arguments lower : simpl never.
Arguments str_of_nat : simpl never.

(** Stamping the documents changes neither the store nor the output, and
    keeps their texts. *)
Lemma add_metadata_world env path t docs :
  forall w r w',
    add_metadata env path t docs w = (r, w') ->
    batches w' = batches w /\ stdout w' = stdout w
    /\ exists stamped,
         r = Ok stamped /\ map page_content stamped = map page_content docs.
Proof.
  induction docs as [| doc rest IH]; intros w r w' H; cbn in H.
  - injection H as <- <-. repeat split. now exists [].
  - destruct (add_metadata env path t rest
                (mkWorld (batches w) (stdout w) (S (ticks w))))
      as [r1 w1] eqn:Hrest.
    destruct (IH _ _ _ Hrest) as (Hb & Hs & stamped & -> & Htexts).
    cbn in H. injection H as <- <-. repeat split; [exact Hb | exact Hs | ].
    eexists. split; [reflexivity | ]. cbn. now rewrite Htexts.
Qed.

(** With a console that shows every line, [process_document] catches every
    exception: it returns a boolean. *)
Lemma process_document_total env self file_path t w :
  exists ok w', process_document env self file_path t w = (Ok ok, w').
Proof.
  unfold process_document. cbn.
  run_all.
  all: eexists; eexists; reflexivity.
Qed.

(** What a successful ingestion of one file did. *)
Lemma process_document_success env self file_path t w :
  match process_document env self file_path t w with
  | (Ok true, w') =>
      exists loader documents stamped w1 w2 splits,
        path_exists env file_path = true
        /\ PyDict.get SUPPORTED_EXTENSIONS (lower (path_suffix env file_path))
           = Some loader
        /\ loader_load env loader (path_str env file_path) = Ok documents
        /\ add_metadata env file_path t documents w1 = (Ok stamped, w2)
        /\ map page_content stamped = map page_content documents
        /\ split_documents env (chunk_size (text_splitter self))
             (chunk_overlap (text_splitter self)) stamped = Ok splits
        /\ batches w' = (batches w ++ [splits])%list
  | _ => True
  end.
Proof.
  run_cases (process_document env self file_path t w).
  unfold process_document. cbn.
  run_all.
  all: run_done; try exact I.
  all: match goal with
       | H : add_metadata _ _ _ _ _ = _ |- _ =>
           destruct (add_metadata_world _ _ _ _ _ _ _ H)
             as (Hb & _ & stamped & Hr & Htexts);
           injection Hr as <-; cbn in Hb
       end.
  all: exists l, a, a0; do 2 eexists; exists a1.
  all: repeat match goal with |- _ /\ _ => split end; try eassumption.
  all: try reflexivity.
  all: try (apply negb_false_iff; eassumption).
  all: cbn; now rewrite Hb.
Qed.

(** C5. When [process_document] of a processor built by [__init__] succeeds,
    the documents the loader returned were stamped with their metadata and
    split by the splitter configured with chunk size 1000 and overlap 200,
    and the chunks went to the vector store in one call: the store received
    exactly one more batch, the list of all the chunks. *)
Theorem C5_chunks_in_one_batch env file_path document_type w w' :
  process_document env init file_path document_type w = (Ok true, w') ->
  exists loader documents stamped w1 w2 splits,
    PyDict.get SUPPORTED_EXTENSIONS (lower (path_suffix env file_path))
    = Some loader
    /\ loader_load env loader (path_str env file_path) = Ok documents
    /\ add_metadata env file_path document_type documents w1 = (Ok stamped, w2)
    /\ map page_content stamped = map page_content documents
    /\ split_documents env 1000 200 stamped = Ok splits
    /\ batches w' = (batches w ++ [splits])%list.
Proof.
  intros Hrun.
  pose proof (process_document_success env init file_path document_type w) as H.
  rewrite Hrun in H.
  destruct H as (loader & documents & stamped & w1 & w2 & splits
                 & _ & Hloader & Hload & Hmeta & Htexts & Hsplit & Hbatch).
  exists loader, documents, stamped, w1, w2, splits.
  repeat split; assumption.
Qed.

Lemma C5_witness :
  exists splits,
    batches (snd (process_document Demo.files_env init "docs/a.txt" None
                    Demo.empty_world))
    = (batches Demo.empty_world ++ [splits])%list.
Proof.
  assert (Hrun : process_document Demo.files_env init "docs/a.txt" None
                   Demo.empty_world
                 = (Ok true,
                    snd (process_document Demo.files_env init "docs/a.txt" None
                           Demo.empty_world)))
    by (vm_compute; reflexivity).
  destruct (C5_chunks_in_one_batch Demo.files_env "docs/a.txt" None
              Demo.empty_world _ Hrun)
    as (loader & documents & stamped & w1 & w2 & splits & _ & _ & _ & _ & _ & Hb).
  exists splits. exact Hb.
Defined.

(** ** Ingestion: a directory *)

Arguments process_document : simpl never.

Lemma stats_eq n n' a a' b b' :
  n = n' -> a = a' -> b = b' -> mkStats n a b = mkStats n' a' b'.
Proof. now intros -> -> ->. Qed.

Lemma processed_length env self t files w oks w' :
  processed env self t files w oks w' -> length oks = length files.
Proof.
  induction 1; cbn; congruence.
Qed.

Lemma processed_app env self t files1 files2 w oks1 w1 oks2 w2 :
  processed env self t files1 w oks1 w1 ->
  processed env self t files2 w1 oks2 w2 ->
  processed env self t (files1 ++ files2) w (oks1 ++ oks2) w2.
Proof.
  induction 1; intros H2; cbn.
  - exact H2.
  - econstructor; eauto.
Qed.

Lemma count_true_app l1 l2 :
  count_true (l1 ++ l2) = count_true l1 + count_true l2.
Proof.
  unfold count_true. now rewrite filter_app, length_app.
Qed.

Lemma count_false_app l1 l2 :
  count_false (l1 ++ l2) = count_false l1 + count_false l2.
Proof.
  unfold count_false. now rewrite filter_app, length_app.
Qed.

(** Every outcome is counted once, as a success or as a failure. *)
Lemma count_true_false l : count_true l + count_false l = length l.
Proof.
  unfold count_true, count_false.
  induction l as [| [] l IH]; cbn; lia.
Qed.

(** The inner loop gives every file to [process_document], whatever became
    of the files before it, and counts each outcome. *)
Lemma for_files_processed env self t files :
  forall s w,
  exists oks w',
    processed env self t files w oks w'
    /\ for_files env self files t (s, w)
       = (Ok tt,
          (mkStats (total s) (successful s + count_true oks)
             (failed s + count_false oks), w')).
Proof.
  induction files as [| file_path rest IH]; intros s w.
  - exists [], w. split; [constructor | ]. cbn.
    destruct s as [n ok ko]. cbn. now rewrite !Nat.add_0_r.
  - destruct (process_document_total env self file_path t w) as (ok & w1 & Hdoc).
    cbn. rewrite Hdoc. cbn.
    destruct ok; cbn.
    + destruct (IH (mkStats (total s) (successful s + 1) (failed s)) w1)
        as (oks & w2 & Hrest & Hloop).
      exists (true :: oks), w2. split; [econstructor; eauto | ].
      rewrite Hloop. cbn. unfold count_true, count_false. cbn.
      do 2 f_equal. apply stats_eq; lia.
    + destruct (IH (mkStats (total s) (successful s) (failed s + 1)) w1)
        as (oks & w2 & Hrest & Hloop).
      exists (false :: oks), w2. split; [econstructor; eauto | ].
      rewrite Hloop. cbn. unfold count_true, count_false. cbn.
      do 2 f_equal. apply stats_eq; lia.
Qed.

(** The outer loop keeps the difference between [total] and the two other
    counts, also when a listing fails half way. *)
Lemma for_extensions_balance env self path t exts :
  forall s w,
  exists r s' w',
    for_extensions env self path exts t (s, w) = (r, (s', w'))
    /\ total s' + successful s + failed s = total s + successful s' + failed s'.
Proof.
  induction exts as [| ext rest IH]; intros s w; cbn.
  - exists (Ok tt), s, w. split; [reflexivity | lia].
  - destruct (path_glob env path ("**/*" ++ ext)) as [files | e]; cbn.
    + destruct (for_files_processed env self t files
                  (mkStats (total s + length files) (successful s) (failed s)) w)
        as (oks & w1 & Hproc & Hloop).
      rewrite Hloop. cbn.
      destruct (IH (mkStats (total s + length files)
                      (successful s + count_true oks)
                      (failed s + count_false oks)) w1)
        as (r & s' & w' & Hrest & Hbal).
      exists r, s', w'. split; [exact Hrest | ].
      cbn in Hbal.
      pose proof (count_true_false oks) as Hcount.
      pose proof (processed_length _ _ _ _ _ _ _ Hproc) as Hlen.
      lia.
    + exists (Raise e), s, w. split; [reflexivity | lia].
Qed.

(** A directory whose three listings succeed: the files they return are
    processed one after the other, and the statistics count the outcomes. *)
Lemma process_directory_scan env self path t w pdfs txts mds :
  path_exists env path = true ->
  path_is_dir env path = true ->
  path_glob env path "**/*.pdf" = Ok pdfs ->
  path_glob env path "**/*.txt" = Ok txts ->
  path_glob env path "**/*.md" = Ok mds ->
  exists oks w',
    processed env self t (pdfs ++ txts ++ mds) w oks w'
    /\ process_directory env self path t w = (Ok (stats_of oks), w').
Proof.
  intros Hexists Hdir Hpdf Htxt Hmd.
  unfold process_directory. cbn. rewrite Hexists, Hdir. cbn.
  change ("**/*" ++ ".pdf") with "**/*.pdf".
  change ("**/*" ++ ".txt") with "**/*.txt".
  change ("**/*" ++ ".md") with "**/*.md".
  rewrite Hpdf. cbn.
  match goal with
  | |- context [for_files env self pdfs t (?s, ?w0)] =>
      destruct (for_files_processed env self t pdfs s w0)
        as (oks1 & w1 & Hp1 & ->)
  end. cbn.
  rewrite Htxt. cbn.
  match goal with
  | |- context [for_files env self txts t (?s, ?w0)] =>
      destruct (for_files_processed env self t txts s w0)
        as (oks2 & w2 & Hp2 & ->)
  end. cbn.
  rewrite Hmd. cbn.
  match goal with
  | |- context [for_files env self mds t (?s, ?w0)] =>
      destruct (for_files_processed env self t mds s w0)
        as (oks3 & w3 & Hp3 & ->)
  end. cbn.
  exists (oks1 ++ oks2 ++ oks3)%list, w3. split.
  - eauto using processed_app.
  - unfold stats_of.
    rewrite !count_true_app, !count_false_app, !length_app.
    rewrite (processed_length _ _ _ _ _ _ _ Hp1),
      (processed_length _ _ _ _ _ _ _ Hp2), (processed_length _ _ _ _ _ _ _ Hp3).
    do 2 f_equal. apply stats_eq; lia.
Qed.

(** ** More on ingestion *)

(** What one call of [process_document] adds to the store and prints. *)
Lemma process_document_effects env self file_path t w :
  match process_document env self file_path t w with
  | (Ok true, w') =>
      exists splits,
        batches w' = (batches w ++ [splits])%list
        /\ stdout w'
           = app (stdout w)
               [ "Processing " ++ path_name env file_path ++ "...";
                 "Successfully processed " ++ path_name env file_path ++ " ("
                 ++ str_of_nat (length splits) ++ " chunks created)" ]
  | (Ok false, w') =>
      batches w' = batches w
      /\ exists printed cause,
           stdout w'
           = app (stdout w)
               (app printed
                  ["Error processing document " ++ file_path ++ ": " ++ cause])
           /\ (printed = []
               \/ printed = ["Processing " ++ path_name env file_path ++ "..."])
  | (Raise _, _) => False
  end.
Proof.
  run_cases (process_document env self file_path t w).
  unfold process_document. cbn.
  run_all.
  all: try match goal with
         | H : add_metadata _ _ _ _ _ = _ |- _ =>
             destruct (add_metadata_world _ _ _ _ _ _ _ H)
               as (Hb & Hs & stamped & Hr & _);
             try discriminate Hr; cbn in Hb, Hs
         end.
  all: run_done.
  all: try (eexists; split; [now rewrite Hb | ];
            rewrite Hs, <- app_assoc; reflexivity).
  all: split; [ first [ reflexivity | exact Hb ] | ].
  all: first [ exists []; eexists; split; [reflexivity | now left]
             | eexists [_]; eexists; split;
               [ rewrite ?Hs, <- app_assoc; reflexivity | now right ] ].
Qed.

(** X9. A document that fails leaves the vector store as it was, whatever
    the step that failed (the path, the extension, the loader, the splitter
    or the store itself), and the last line printed names the file and the
    cause. *)
Theorem failed_document_adds_nothing env self file_path t w w' :
  process_document env self file_path t w = (Ok false, w') ->
  batches w' = batches w
  /\ exists printed cause,
       stdout w'
       = app (stdout w)
           (app printed
              ["Error processing document " ++ file_path ++ ": " ++ cause])
       /\ (printed = []
           \/ printed = ["Processing " ++ path_name env file_path ++ "..."]).
Proof.
  intros Hrun.
  pose proof (process_document_effects env self file_path t w) as H.
  rewrite Hrun in H. exact H.
Qed.

Lemma failed_document_adds_nothing_witness :
  batches (snd (process_document Demo.files_env init "docs/b.pdf" None
                  Demo.empty_world)) = [].
Proof.
  refine (proj1 (failed_document_adds_nothing Demo.files_env init "docs/b.pdf"
                   None Demo.empty_world _ _)).
  vm_compute. reflexivity.
Defined.

(** X10. A document that succeeds prints two lines, and the number of
    chunks the second line reports is the size of the one batch the store
    received. *)
Theorem successful_document_report env self file_path t w w' :
  process_document env self file_path t w = (Ok true, w') ->
  exists splits,
    batches w' = (batches w ++ [splits])%list
    /\ stdout w'
       = app (stdout w)
           [ "Processing " ++ path_name env file_path ++ "...";
             "Successfully processed " ++ path_name env file_path ++ " ("
             ++ str_of_nat (length splits) ++ " chunks created)" ].
Proof.
  intros Hrun.
  pose proof (process_document_effects env self file_path t w) as H.
  rewrite Hrun in H. exact H.
Qed.

Lemma successful_document_report_witness :
  stdout (snd (process_document Demo.files_env init "docs/c.md" None
                 Demo.empty_world))
  = ["Processing c.md..."; "Successfully processed c.md (1 chunks created)"].
Proof.
  destruct (successful_document_report Demo.files_env init "docs/c.md" None
              Demo.empty_world _ ltac:(vm_compute; reflexivity))
    as (splits & Hb & Hs).
  vm_compute in Hb. injection Hb as <-. exact Hs.
Defined.

(** The four keys the stamp writes. *)
Lemma stamp_lookup (d : PyDict.t string) v1 v2 v3 v4 :
  let stamped :=
    PyDict.update d [ ("source", v1); ("filename", v2); ("type", v3);
                      ("date_processed", v4) ] in
  PyDict.get stamped "source" = Some v1
  /\ PyDict.get stamped "filename" = Some v2
  /\ PyDict.get stamped "type" = Some v3
  /\ PyDict.get stamped "date_processed" = Some v4
  /\ (forall k,
        ~ In k ["source"; "filename"; "type"; "date_processed"] ->
        PyDict.get stamped k = PyDict.get d k).
Proof.
  cbv zeta. unfold PyDict.update. cbn [fold_left fst snd].
  repeat split.
  1-4: repeat first [ rewrite get_set_same | rewrite get_set_other by discriminate ];
    reflexivity.
  intros k Hk.
  rewrite !get_set_other; [reflexivity | | | | ].
  all: intros <-; apply Hk; cbn; tauto.
Qed.

(** X11. What the metadata loop does to the documents a loader returned.
    The loop cannot fail. It keeps the number, the order and the text of the
    documents; on each it sets [source], [filename], [type] and
    [date_processed] and keeps every other key the loader had set; [type] is
    the document type given, or ["general"] when none or the empty text was
    given; the clock is read once per document, in order. *)
Theorem metadata_stamp env path t docs :
  forall w,
  exists stamped,
    add_metadata env path t docs w
    = (Ok stamped, mkWorld (batches w) (stdout w) (length docs + ticks w))
    /\ length stamped = length docs
    /\ (t = None \/ t = Some "" -> or_general t = "general")
    /\ (forall i doc,
          nth_error docs i = Some doc ->
          exists doc',
            nth_error stamped i = Some doc'
            /\ page_content doc' = page_content doc
            /\ PyDict.get (metadata doc') "source" = Some (path_str env path)
            /\ PyDict.get (metadata doc') "filename" = Some (path_name env path)
            /\ PyDict.get (metadata doc') "type" = Some (or_general t)
            /\ PyDict.get (metadata doc') "date_processed"
               = Some (isoformat_now env (i + ticks w))
            /\ (forall k,
                  ~ In k ["source"; "filename"; "type"; "date_processed"] ->
                  PyDict.get (metadata doc') k = PyDict.get (metadata doc) k)).
Proof.
  induction docs as [| doc0 rest IH]; intros w.
  - exists []. cbn. destruct w. repeat split.
    + intros [-> | ->]; reflexivity.
    + intros [| i] doc H; discriminate H.
  - destruct (IH (mkWorld (batches w) (stdout w) (S (ticks w))))
      as (stamped & Hrun & Hlen & _ & Hdocs).
    eexists. cbn. rewrite Hrun. cbn.
    split; [ rewrite Nat.add_succ_r; reflexivity | ].
    split; [ cbn; now rewrite Hlen | ].
    split; [ intros [-> | ->]; reflexivity | ].
    intros [| i] doc Hnth; cbn in Hnth.
    + injection Hnth as <-. eexists. split; [reflexivity | ]. cbn.
      split; [reflexivity | ]. apply stamp_lookup.
    + destruct (Hdocs i doc Hnth) as (doc' & Hnth' & Hrest).
      exists doc'. split; [exact Hnth' | ].
      cbn in Hrest. rewrite Nat.add_succ_r in Hrest. exact Hrest.
Qed.

Lemma metadata_stamp_witness :
  exists stamped doc',
    fst (add_metadata Demo.files_env "docs/a.txt" (Some "")
           [mkDocument "first" []; mkDocument "second" [("page", "2")]]
           Demo.empty_world) = Ok stamped
    /\ nth_error stamped 1 = Some doc'
    /\ page_content doc' = "second"
    /\ PyDict.get (metadata doc') "type" = Some "general"
    /\ PyDict.get (metadata doc') "date_processed" = Some "2024-01-01T00:00:01"
    /\ PyDict.get (metadata doc') "page" = Some "2".
Proof.
  destruct (metadata_stamp Demo.files_env "docs/a.txt" (Some "")
              [mkDocument "first" []; mkDocument "second" [("page", "2")]]
              Demo.empty_world)
    as (stamped & Hrun & _ & _ & Hdocs).
  destruct (Hdocs 1 (mkDocument "second" [("page", "2")]) eq_refl)
    as (doc' & Hnth & Htext & _ & _ & Htype & Hdate & Hother).
  exists stamped, doc'.
  split; [now rewrite Hrun | ].
  split; [exact Hnth | ].
  split; [exact Htext | ].
  split; [exact Htype | ].
  split; [exact Hdate | ].
  rewrite Hother; [reflexivity | ].
  cbn. intuition discriminate.
Defined.

(** ** More on directories *)



(** One call of [process_document] adds one batch when it succeeds and none
    when it fails. *)
Lemma process_document_batches env self file_path t w ok w' :
  process_document env self file_path t w = (Ok ok, w') ->
  exists new,
    batches w' = (batches w ++ new)%list
    /\ length new = if ok then 1 else 0.
Proof.
  intros Hrun.
  pose proof (process_document_effects env self file_path t w) as H.
  rewrite Hrun in H. destruct ok.
  - destruct H as (splits & Hb & _). exists [splits]. now split.
  - destruct H as (Hb & _). exists []. split; [now rewrite app_nil_r | reflexivity].
Qed.

Lemma processed_batches env self t files w oks w' :
  processed env self t files w oks w' ->
  exists new,
    batches w' = (batches w ++ new)%list /\ length new = count_true oks.
Proof.
  induction 1 as [w | file_path rest w ok w1 oks w2 Hdoc Hrest IH].
  - exists []. split; [now rewrite app_nil_r | reflexivity].
  - destruct (process_document_batches _ _ _ _ _ _ _ Hdoc) as (new1 & Hb1 & Hl1).
    destruct IH as (new2 & Hb2 & Hl2).
    exists (new1 ++ new2)%list. split.
    + now rewrite Hb2, Hb1, app_assoc.
    + rewrite length_app, Hl1, Hl2. unfold count_true.
      destruct ok; reflexivity.
Qed.

(** The outer loop adds as many batches as it counts successes, also when a
    listing fails half way. *)
Lemma for_extensions_batches env self path t exts :
  forall s w r s' w',
    for_extensions env self path exts t (s, w) = (r, (s', w')) ->
    exists new,
      batches w' = (batches w ++ new)%list
      /\ successful s' = successful s + length new.
Proof.
  induction exts as [| ext rest IH]; intros s w r s' w' Hrun; cbn in Hrun.
  - injection Hrun as <- <- <-. exists [].
    split; [now rewrite app_nil_r | cbn; lia].
  - destruct (path_glob env path ("**/*" ++ ext)) as [files | e]; cbn in Hrun.
    + destruct (for_files_processed env self t files
                  (mkStats (total s + length files) (successful s) (failed s)) w)
        as (oks & w1 & Hproc & Hloop).
      rewrite Hloop in Hrun. cbn in Hrun.
      destruct (IH _ _ _ _ _ Hrun) as (new2 & Hb2 & Hs2).
      destruct (processed_batches _ _ _ _ _ _ _ Hproc) as (new1 & Hb1 & Hl1).
      exists (new1 ++ new2)%list. split.
      * now rewrite Hb2, Hb1, app_assoc.
      * cbn in Hs2. rewrite length_app. lia.
    + injection Hrun as <- <- <-. exists [].
      split; [now rewrite app_nil_r | cbn; lia].
Qed.

(** X13. The count of successes is the number of batches the store
    received: whatever the path and whatever fails on the way, the store
    after [process_directory] is the store before it followed by exactly
    [successful] new batches, and no batch that was there is changed or
    removed. *)
Theorem successes_are_batches env self path t w s w' :
  process_directory env self path t w = (Ok s, w') ->
  exists new,
    batches w' = (batches w ++ new)%list /\ length new = successful s.
Proof.
  unfold process_directory. cbn.
  destruct (negb (path_exists env path) || negb (path_is_dir env path)); cbn.
  - intros Hrun. injection Hrun as <- <-. exists []. cbn.
    split; [now rewrite app_nil_r | reflexivity].
  - destruct (for_extensions env self path
                (PyDict.keys SUPPORTED_EXTENSIONS) t (mkStats 0 0 0, w))
      as [r [s1 w1]] eqn:Hloop.
    destruct (for_extensions_batches _ _ _ _ _ _ _ _ _ _ Hloop)
      as (new & Hb & Hs).
    cbn in Hloop. rewrite Hloop.
    destruct r as [[] | e]; cbn; intros Hrun; injection Hrun as <- <-.
    + exists new. split; [exact Hb | cbn in Hs; lia].
    + exists new. cbn. split; [exact Hb | cbn in Hs; lia].
Qed.

Lemma successes_are_batches_witness :
  exists new,
    batches (snd (process_directory Demo.files_env init "docs" None
                    Demo.empty_world)) = new
    /\ length new = 2.
Proof.
  destruct (successes_are_batches Demo.files_env init "docs" None
              Demo.empty_world _ _ ltac:(vm_compute; reflexivity))
    as (new & Hb & Hl).
  exists new. split; [exact Hb | exact Hl].
Defined.

(** ** The menu *)

Import Cli.

Arguments process_directory : simpl never.
Arguments in_console {A} m c /.
Arguments input prompt c /.
Arguments or_none : simpl never.
Arguments main : simpl never.

(** With a console that shows every line, [process_directory] returns its
    statistics, whatever happens. *)
Lemma process_directory_total env self path t w :
  exists s w', process_directory env self path t w = (Ok s, w').
Proof.
  unfold process_directory. cbn.
  destruct (negb (path_exists env path) || negb (path_is_dir env path)); cbn.
  - eexists. eexists. reflexivity.
  - destruct (for_extensions_balance env self path t
                (PyDict.keys SUPPORTED_EXTENSIONS) (mkStats 0 0 0) w)
      as (r & s & w' & Hloop & _).
    cbn in Hloop. rewrite Hloop.
    destruct r as [[] | e]; cbn; eexists; eexists; reflexivity.
Qed.

(** The call a round makes is replaced by its outcome. *)
Ltac call_outcome :=
  match goal with
  | |- context [process_document ?env ?p ?f ?t ?w] =>
      let ok := fresh "ok" in
      let w2 := fresh "w" in
      let H := fresh "Hdoc" in
      destruct (process_document_total env p f t w) as (ok & w2 & H);
      rewrite H; cbn; destruct ok; cbn
  | |- context [process_directory ?env ?p ?d ?t ?w] =>
      let s := fresh "s" in
      let w2 := fresh "w" in
      let H := fresh "Hdir" in
      destruct (process_directory_total env p d t w) as (s & w2 & H);
      rewrite H; cbn
  end.

(** Rounds that are not needed change nothing. *)
Lemma main_loop_fuel env :
  forall fuel1 fuel2 processor c,
    length (stdin c) < fuel1 ->
    length (stdin c) < fuel2 ->
    main_loop env fuel1 processor c = main_loop env fuel2 processor c.
Proof.
  induction fuel1 as [| fuel1 IH]; intros [| fuel2] processor [lines w] H1 H2;
    cbn in H1, H2; try lia.
  cbn.
  destruct lines as [| choice rest]; cbn; [reflexivity | ].
  destruct (String.eqb choice "1") eqn:E1;
    [ | destruct (String.eqb choice "2") eqn:E2;
        [ | destruct (String.eqb choice "3") eqn:E3 ] ]; cbn.
  3: reflexivity.
  3: apply IH; cbn in *; lia.
  all: destruct rest as [| arg1 rest]; cbn in H1, H2 |- *; [reflexivity | ].
  all: destruct rest as [| arg2 rest]; cbn in H1, H2 |- *; [reflexivity | ].
  all: call_outcome.
  all: apply IH; cbn in *; lia.
Qed.

(** X15. What one round of the menu does. The choice 3 ends the loop and
    leaves the rest of the input unread. A choice other than 1, 2, 3 reads
    nothing more and touches neither store nor clock: the menu goes on
    with the next line. The choice 1 reads a path and a type and processes
    that document; the choice 2 reads a path and a type, processes that
    directory and prints its three counts. A type left empty is passed as
    [None]. *)
Theorem menu_rounds env rest w :
  let shown :=
    mkWorld (batches w)
      (app (stdout w)
         [ nl ++ "=== Knowledge Base ==="; "1. Process single document";
           "2. Process directory"; "3. Exit"; nl ++ "Enter your choice (1-3): " ])
      (ticks w) in
  main env (mkConsole ("3" :: rest) w) = (Ok tt, mkConsole rest shown)
  /\ (forall choice,
        choice <> "1" -> choice <> "2" -> choice <> "3" ->
        main env (mkConsole (choice :: rest) w)
        = main env
            (mkConsole rest
               (mkWorld (batches w)
                  (app (stdout shown) ["Invalid choice. Please try again."])
                  (ticks w))))
  /\ (forall file_path doc_type,
        exists w1 ok w2,
          batches w1 = batches w /\ ticks w1 = ticks w
          /\ process_document env init file_path (or_none doc_type) w1
             = (Ok ok, w2)
          /\ main env (mkConsole ("1" :: file_path :: doc_type :: rest) w)
             = main env
                 (mkConsole rest
                    (mkWorld (batches w2)
                       (if ok
                        then app (stdout w2) ["Document processed successfully!"]
                        else stdout w2)
                       (ticks w2))))
  /\ (forall dir_path doc_type,
        exists w1 s w2,
          batches w1 = batches w /\ ticks w1 = ticks w
          /\ process_directory env init dir_path (or_none doc_type) w1
             = (Ok s, w2)
          /\ main env (mkConsole ("2" :: dir_path :: doc_type :: rest) w)
             = main env
                 (mkConsole rest
                    (mkWorld (batches w2)
                       (app (stdout w2)
                          [ nl ++ "Processing complete:";
                            "Total files: " ++ str_of_nat (total s);
                            "Successfully processed: "
                            ++ str_of_nat (successful s);
                            "Failed: " ++ str_of_nat (failed s) ])
                       (ticks w2))))
  /\ or_none "" = None
  /\ (forall doc_type, doc_type <> "" -> or_none doc_type = Some doc_type).
Proof.
  cbv zeta.
  split; [ | split; [ | split; [ | split; [ | split ] ] ] ].
  - unfold main. cbn. rewrite <- !app_assoc. reflexivity.
  - intros choice H1 H2 H3. unfold main. cbn.
    destruct (String.eqb_spec choice "1"); [contradiction | ].
    destruct (String.eqb_spec choice "2"); [contradiction | ].
    destruct (String.eqb_spec choice "3"); [contradiction | ].
    cbn. rewrite <- !app_assoc. reflexivity.
  - intros file_path doc_type. unfold main at 1. cbn [length stdin].
    remember (S (S (S (length rest)))) as fuel eqn:Hfuel. cbn.
    match goal with
    | |- context [process_document env init file_path (or_none doc_type) ?w1] =>
        destruct (process_document_total env init file_path (or_none doc_type) w1)
          as (ok & w2 & Hdoc);
        exists w1, ok, w2
    end.
    split; [reflexivity | ]. split; [reflexivity | ]. split; [exact Hdoc | ].
    rewrite Hdoc. cbn.
    destruct ok, w2; cbn.
    all: unfold main; cbn [length stdin].
    all: apply main_loop_fuel; cbn; lia.
  - intros dir_path doc_type. unfold main at 1. cbn [length stdin].
    remember (S (S (S (length rest)))) as fuel eqn:Hfuel. cbn.
    match goal with
    | |- context [process_directory env init dir_path (or_none doc_type) ?w1] =>
        destruct (process_directory_total env init dir_path (or_none doc_type) w1)
          as (s & w2 & Hdir);
        exists w1, s, w2
    end.
    split; [reflexivity | ]. split; [reflexivity | ]. split; [exact Hdir | ].
    rewrite Hdir. cbn.
    rewrite <- !app_assoc. cbn [app].
    unfold main; cbn [length stdin].
    apply main_loop_fuel; cbn; lia.
  - reflexivity.
  - intros [| a s] H; [contradiction | reflexivity].
Qed.

Lemma menu_rounds_witness :
  main Demo.files_env (mkConsole ["?"; "3"] Demo.empty_world)
  = main Demo.files_env
      (mkConsole ["3"]
         (mkWorld []
            [ nl ++ "=== Knowledge Base ==="; "1. Process single document";
              "2. Process directory"; "3. Exit";
              nl ++ "Enter your choice (1-3): ";
              "Invalid choice. Please try again." ] 0)).
Proof.
  apply (proj1 (proj2 (menu_rounds Demo.files_env ["3"] Demo.empty_world)) "?");
    discriminate.
Defined.

(** ** The status endpoint *)

(** [get_status] answers in every case and changes nothing: the reply is
    [ready] with the count and the name when both can be read, and otherwise
    [error] with the text of the first failure, the count being read first. *)
Lemma get_status_reply {W} (collection : Status.Collection) (w : W) :
  Status.get_status collection w
  = (Ok match Status.count collection, Status.name collection with
        | Ok n, Ok nm => Status.ready n nm
        | Ok _, Raise e => Status.error (exn_str e)
        | Raise e, _ => Status.error (exn_str e)
        end, w).
Proof.
  unfold Status.get_status. cbn.
  destruct (Status.count collection); cbn; [ | reflexivity ].
  destruct (Status.name collection); reflexivity.
Qed.

(** ** Ingestion on a console that can refuse a line *)

Arguments Strict.print out line /.
Arguments Strict.process_document_body env out str_lower self file_path document_type /.
Arguments Strict.process_document : simpl never.
Arguments Strict.process_directory : simpl never.

(** On a console that shows every line, and with the lower-casing of the
    ASCII letters, the two embeddings are the same function. *)
Lemma strict_agrees env err self t :
  let out := Strict.mkStdout (fun _ => true) err in
  (forall file_path w,
      Strict.process_document env out lower self file_path t w
      = process_document env self file_path t w)
  /\ (forall path w,
        Strict.process_directory env out lower self path t w
        = process_directory env self path t w).
Proof.
  cbv zeta. split.
  - intros file_path w. reflexivity.
  - intros path w. reflexivity.
Qed.






(** ** A file name the console cannot show *)

(** C6. The code breaks the claim on a directory with a file whose name
    stdout cannot encode. The listing returns three text files. For the
    second, the first [print] of [process_document] raises
    [UnicodeEncodeError], the handler prints the path again and raises in its
    turn, so [process_document] raises instead of returning [False]. The
    loop of [process_directory] is left: the failure is not counted, the
    third file, which would have been processed, is never reached, and the
    store holds the first file only. *)
Theorem C6_unprintable_name_stops_scan :
  let bad := "inbox/b" ++ Demo.byte255 ++ ".txt" in
  let scan :=
    Strict.process_directory Demo.inbox_env Demo.utf8_stdout lower init
      "inbox" None Demo.empty_world in
  path_glob Demo.inbox_env "inbox" "**/*.txt" = Ok ["inbox/a.txt"; bad; "inbox/c.txt"]
  /\ fst (Strict.process_document Demo.inbox_env Demo.utf8_stdout lower init
            bad None Demo.empty_world)
     = Raise (Strict.UnicodeEncodeError Demo.utf8_stdout
                ("Error processing document " ++ bad ++ ": "
                 ++ Strict.encode_error Demo.utf8_stdout
                      ("Processing b" ++ Demo.byte255 ++ ".txt...")))
  /\ fst scan = Ok (mkStats 3 1 0)
  /\ map (map page_content) (batches (snd scan)) = [["text of inbox/a.txt"]]
  /\ stdout (snd scan)
     = [ "Processing a.txt...";
         "Successfully processed a.txt (1 chunks created)";
         "Error processing directory inbox: "
         ++ Strict.encode_error Demo.utf8_stdout
              ("Error processing document " ++ bad ++ ": "
               ++ Strict.encode_error Demo.utf8_stdout
                    ("Processing b" ++ Demo.byte255 ++ ".txt...")) ]
  /\ fst (Strict.process_document Demo.inbox_env Demo.utf8_stdout lower init
            "inbox/c.txt" None (snd scan))
     = Ok true.
Proof.
  cbv zeta. repeat split; vm_compute; reflexivity.
Qed.

(** C10. The code breaks the claim on the same defect. On the directory
    above the statistics returned are total 3, successful 1, failed 0, so
    total is not successful + failed. And for a path that does not exist and
    that stdout cannot encode, the handler of [process_directory] raises
    [UnicodeEncodeError] when it prints the path: the call does not return. *)
Theorem C10_unprintable_name_breaks_balance :
  let scan :=
    Strict.process_directory Demo.inbox_env Demo.utf8_stdout lower init
      "inbox" None Demo.empty_world in
  let gone := "gone" ++ Demo.byte255 in
  (exists s,
      fst scan = Ok s
      /\ s = mkStats 3 1 0
      /\ total s <> successful s + failed s)
  /\ path_exists Demo.inbox_env gone = false
  /\ fst (Strict.process_directory Demo.inbox_env Demo.utf8_stdout lower init
            gone None Demo.empty_world)
     = Raise (Strict.UnicodeEncodeError Demo.utf8_stdout
                ("Error processing directory " ++ gone ++ ": "
                 ++ "Directory not found: " ++ gone)).
Proof.
  cbv zeta. split; [ | split ].
  - exists (mkStats 3 1 0). split; [vm_compute; reflexivity | ].
    split; [reflexivity | cbn; lia].
  - vm_compute. reflexivity.
  - vm_compute. reflexivity.
Qed.

(** ** Missing and unsupported files *)




(** X16. The defect behind C6 and C10, in general. For a file that exists
    and has a supported extension, when stdout can encode neither the line
    "Processing <name>..." nor any line that reports an error on that path,
    [process_document] raises the [UnicodeEncodeError] of its handler's
    [print] instead of returning [False]; nothing was loaded, stored or
    printed. *)
Theorem unprintable_name_escapes env out str_lower self file_path t w :
  path_exists env file_path = true ->
  PyDict.mem SUPPORTED_EXTENSIONS (str_lower (path_suffix env file_path)) = true ->
  Strict.encodes out ("Processing " ++ path_name env file_path ++ "...") = false ->
  (forall cause,
      Strict.encodes out
        ("Error processing document " ++ file_path ++ ": " ++ cause) = false) ->
  Strict.process_document env out str_lower self file_path t w
  = (Raise (Strict.UnicodeEncodeError out
              ("Error processing document " ++ file_path ++ ": "
               ++ Strict.encode_error out
                    ("Processing " ++ path_name env file_path ++ "..."))),
     w).
Proof.
  intros Hexists Hext Hname Hpath.
  unfold Strict.process_document. cbn. rewrite Hexists. cbn.
  cbn in Hext.
  destruct (PyDict.get SUPPORTED_EXTENSIONS
              (str_lower (path_suffix env file_path)));
    [ | discriminate Hext ].
  cbn. rewrite Hname. cbn. rewrite Hpath. reflexivity.
Qed.

Lemma unprintable_name_escapes_witness :
  fst (Strict.process_document Demo.inbox_env Demo.utf8_stdout lower init
         ("inbox/b" ++ Demo.byte255 ++ ".txt") None Demo.empty_world)
  = Raise (Strict.UnicodeEncodeError Demo.utf8_stdout
             ("Error processing document inbox/b" ++ Demo.byte255 ++ ".txt: "
              ++ Strict.encode_error Demo.utf8_stdout
                   ("Processing b" ++ Demo.byte255 ++ ".txt..."))).
Proof.
  rewrite (unprintable_name_escapes Demo.inbox_env Demo.utf8_stdout lower init
             ("inbox/b" ++ Demo.byte255 ++ ".txt") None Demo.empty_world
             eq_refl eq_refl eq_refl).
  - reflexivity.
  - intros cause. reflexivity.
Defined.
